(** * Training loop of the VAE-encoder / DCGAN illuminance model

    A shallow embedding of [idc_with_vae_and_dcgan/training.py].  The three
    networks, the loss criteria, the optimizer and the random generator are
    collaborators of the loop and appear as the operations of a [Backend];
    the orchestrating code of [Training.training] (gradient bookkeeping,
    tensor concatenation and reshape, counters, loss histories, image export
    and checkpoint sampling) is written out as a program in a state and
    exception monad.  Floating-point values are an abstract carrier and
    their arithmetic belongs to the backend; rationals only denote the
    decimal literals of the source. *)

From Stdlib Require Import String Ascii Arith ZArith QArith Qminmax Lia Bool.
From Stdlib Require Import DecimalString DecimalNat Permutation List.
Import ListNotations.

Set Implicit Arguments.
#[local] Open Scope nat_scope.
#[local] Open Scope list_scope.

(** ** Plain data of the program *)

(** The two passes of an epoch: [for mode in ["train", "val"]]. *)
Inductive split := Train | Val.

(** The three trainable modules. *)
Inductive module_id := Encoder | Generator | Discriminator.

(** The three scalars on which [backward()] is called. *)
Inductive loss_kind := DisErrorReal | DisErrorFake | TotalError.

Inductive torch_op := TorchCat | TorchReshape.

(** The exceptions the loop itself can raise. *)
Inductive exn :=
| RuntimeError (op : torch_op)
| ValueError
| IndexError
| ZeroDivisionError.

Inductive result (A : Type) :=
| Ok (a : A)
| Raise (e : exn).
Arguments Ok {A} a.
Arguments Raise {A} e.

Definition split_eqb (a b : split) : bool :=
  match a, b with Train, Train | Val, Val => true | _, _ => false end.

Definition module_eqb (a b : module_id) : bool :=
  match a, b with
  | Encoder, Encoder | Generator, Generator | Discriminator, Discriminator => true
  | _, _ => false
  end.

(** ** Hyper-parameters: [Training.__init__] and [Data.__init__] *)

Record Training := {
  manualSeed : nat;
  in_channels : nat;
  n_channels : nat;
  latent_dims : nat;
  total_latent_dims : nat;
  gen_feature_map_size : nat;
  dis_feature_map_size : nat;
  label_real : Q;
  label_fake : Q;
  vae_loss_scaling_factor : Q;
  vae_lr : Q;
  gen_lr : Q;
  dis_lr : Q;
  betas : Q * Q;
  batch_size : nat;
  n_epochs : nat
}.

Definition Training_init (n : nat) : Training := {|
  manualSeed := 1000;
  in_channels := 4;
  n_channels := 1;
  latent_dims := 64;
  total_latent_dims := 448;
  gen_feature_map_size := 64;
  dis_feature_map_size := 64;
  label_real := 1;
  label_fake := 0;
  vae_loss_scaling_factor := 1 # 100;
  vae_lr := 1 # 1000;
  gen_lr := 5 # 1000;
  dis_lr := 5 # 1000;
  betas := (5 # 10, 999 # 1000);
  batch_size := 16;
  n_epochs := n
|}.

Record Data := {
  image_size : nat;
  data_batch_size : nat;
  data_shuffle : bool;
  num_workers : nat
}.

Definition Data_init : Data := {|
  image_size := 64;
  data_batch_size := 16;
  data_shuffle := true;
  num_workers := 2
|}.

(** ** Formatting of the exported file names *)

(** [f"{n:03d}"]: decimal digits, padded with zeros on the left to a width
    of at least three. *)
Definition decimal (n : nat) : string :=
  NilEmpty.string_of_uint (Nat.to_uint n).

Fixpoint zeros (k : nat) : string :=
  match k with
  | O => EmptyString
  | S k' => String "0" (zeros k')
  end.

Definition format_03d (n : nat) : string :=
  let s := decimal n in
  (zeros (3 - String.length s) ++ s)%string.

Definition gen_name (n : nat) : string := (format_03d n ++ "_gen.jpg")%string.
Definition real_name (n : nat) : string := (format_03d n ++ "_real.jpg")%string.

(** ** Tensor operations used by the loop itself *)

(** A rank-two tensor is given by its rows; the operations below do not
    look at the entries. *)
Section Rows.
Context {A : Type}.

(** [torch.cat((a, b), dim=1)] on rank-two tensors: the sizes along
    dimension 0 must agree; the rows are joined. *)
Definition torch_cat_dim1 (a b : list (list A)) : result (list (list A)) :=
  if length a =? length b
  then Ok (map (fun p => fst p ++ snd p) (combine a b))
  else Raise (RuntimeError TorchCat).

(** The rows of a [b x t] view of a flat sequence. *)
Fixpoint view_rows (b t : nat) (flat : list A) : list (list A) :=
  match b with
  | O => []
  | S b' => firstn t flat :: view_rows b' t (skipn t flat)
  end.

(** [torch.reshape(x, (b, t, 1, 1))]: the number of elements must be
    [b * t * 1 * 1]; the two trailing unit axes are left implicit. *)
Definition torch_reshape (x : list (list A)) (b t : nat)
  : result (list (list A)) :=
  let flat := concat x in
  if length flat =? b * t * 1 * 1
  then Ok (view_rows b t flat)
  else Raise (RuntimeError TorchReshape).

End Rows.

(** [DataLoader] batching with [drop_last=False]. *)
Section Chunk.
Context {A : Type}.

Fixpoint chunk_aux (fuel n : nat) (l : list A) : list (list A) :=
  match fuel with
  | O => []
  | S fuel' =>
      match l with
      | [] => []
      | _ :: _ => firstn n l :: chunk_aux fuel' n (skipn n l)
      end
  end.

Definition chunk (n : nat) (l : list A) : list (list A) :=
  chunk_aux (length l) n l.

End Chunk.

(** [enumerate(xs, 0)]. *)
Definition enumerate {A : Type} (xs : list A) : list (nat * A) :=
  combine (seq 0 (length xs)) xs.

(** ** The collaborators *)

(** The carriers the loop is parametric in: a floating-point value (an
    entry of a tensor, a zero-dimensional tensor, or the Python float that
    [item()] makes of it), one sample of the single-channel image (a
    [delta_vmap] or a generated image), one sample of the encoder input, an
    image grid, the parameter tensors of a module, one gradient
    contribution, the internal state of an Adam optimizer, the state of
    the global random generator. *)
Class Carriers := {
  scalar : Type;
  image : Type;
  cmap : Type;
  grid : Type;
  params : Type;
  gradv : Type;
  ostate : Type;
  rng : Type
}.

Declare Scope monad_scope.
Delimit Scope monad_scope with monad.

Section Model.
Context {C : Carriers}.

(** A rank-two tensor of floating-point values, given by its rows. *)
Definition tensor2 : Type := list (list scalar).

(** One item of [CustomImageDataset]: the dictionary of [__getitem__]. *)
Record sample := {
  s_delta_vmap : image;
  s_dI : list scalar;
  s_combined_map : cmap
}.

(** One batch after collation: every key holds the stacked field. *)
Record batch := {
  delta_vmap : list image;
  dI : tensor2;
  combined_map : list cmap
}.

Definition collate (items : list sample) : batch := {|
  delta_vmap := map s_delta_vmap items;
  dI := map s_dI items;
  combined_map := map s_combined_map items
|}.

(** One summand of a [.grad] buffer: the [backward()] call that produced
    it, identified by the value of [iters] at that time and by the loss it
    differentiated, and the contribution itself. *)
Record gterm := {
  g_iter : nat;
  g_loss : loss_kind;
  g_val : gradv
}.

(** The parameter tensors of the three networks at one instant. *)
Record nets := {
  enc_p : params;
  gen_p : params;
  dis_p : params
}.

(** What the loop asks of its collaborators. *)
Class Backend := {
  (* the float a decimal literal of the source denotes, and the float a
     Python integer becomes in mixed arithmetic *)
  lit : Q -> scalar;
  of_int : nat -> scalar;
  (* arithmetic on tensors: +, -, * by a Python float, unary minus,
     division, maximum *)
  t_add : scalar -> scalar -> scalar;
  t_sub : scalar -> scalar -> scalar;
  t_mul : scalar -> scalar -> scalar;
  t_neg : scalar -> scalar;
  t_div : scalar -> scalar -> scalar;
  t_max : scalar -> scalar -> scalar;
  (* arithmetic on Python floats: unary minus, +, / *)
  py_neg : scalar -> scalar;
  py_add : scalar -> scalar -> scalar;
  py_truediv : scalar -> scalar -> scalar;
  (* VanillaVAEEncoder.forward, Generator.__call__, Discriminator.__call__ *)
  encoder_fwd : params -> list cmap -> tensor2;
  generator_fwd : params -> tensor2 -> list image;
  discriminator_fwd : params -> list image -> list scalar;
  (* the L2 norm of a row, for nn.functional.normalize *)
  l2norm : list scalar -> scalar;
  (* nn.BCELoss() *)
  criterion : list scalar -> list scalar -> scalar;
  (* nn.functional.softmax(_, dim=2) on one sample *)
  softmax_dim2 : image -> image;
  (* nn.KLDivLoss(reduction="batchmean") *)
  vae_criterion : list image -> list image -> scalar;
  (* the gradient of a loss with respect to a module's parameters *)
  autograd : loss_kind -> module_id -> nets -> batch -> gradv;
  (* optim.Adam: construction and step() *)
  adam_init : Q -> Q * Q -> ostate;
  adam_step : ostate -> params -> list gterm -> ostate * params;
  (* the global generator once torch.manual_seed(seed) has run and the
     three networks are built, and torch.randn(rows, cols, 1, 1): the
     tensor drawn and the generator after the draw *)
  initial_rng : nat -> rng;
  randn : rng -> nat -> nat -> tensor2 * rng;
  (* vutils.make_grid(_, padding=2, normalize=True) *)
  make_grid : list image -> grid;
  (* the permutation random_split draws, and the one a shuffling
     DataLoader draws when iterated in a given epoch *)
  split_perm : list sample -> list sample;
  shuffle_perm : nat -> list sample -> list sample
}.

Context {B : Backend}.

(** What the module and data contracts promise: a forward pass keeps the
    batch dimension, and the two draws are permutations. *)
Class BackendLaws : Prop := {
  generator_batch : forall p z, length (generator_fwd p z) = length z;
  encoder_batch : forall p x, length (encoder_fwd p x) = length x;
  shuffle_permutation : forall e l, Permutation (shuffle_perm e l) l;
  split_permutation : forall l, Permutation (split_perm l) l
}.

(** Rounding is symmetric in the sign: multiplying by the opposite factor
    gives the opposite product, and adding an opposite is subtracting. *)
Class ArithmeticLaws : Prop := {
  mul_opposite : forall a b, t_mul (py_neg a) b = t_neg (t_mul a b);
  add_opposite : forall a b, t_add a (t_neg b) = t_sub a b
}.

(** ** Loaders: [Data.dataset_prep] *)

Record DataLoader := {
  dl_dataset : list sample;
  dl_batch_size : nat;
  dl_shuffle : bool
}.

(** [len(loader)]: the number of batches, rounded up. *)
Definition loader_len (l : DataLoader) : nat :=
  (length (dl_dataset l) + dl_batch_size l - 1) / dl_batch_size l.

(** The batches one iteration over the loader yields in a given epoch. *)
Definition loader_batches (epoch : nat) (l : DataLoader) : list batch :=
  let items := if dl_shuffle l then shuffle_perm epoch (dl_dataset l)
               else dl_dataset l in
  map collate (chunk (dl_batch_size l) items).

(** [DataLoader(dataset, batch_size, shuffle)]: the batch size must be
    positive, and a shuffling loader builds a [RandomSampler], which
    refuses an empty dataset. *)
Definition new_DataLoader (dataset : list sample) (batch_size : nat)
  (shuffle : bool) : result DataLoader :=
  if (batch_size =? 0) || (shuffle && (length dataset =? 0))
  then Raise ValueError
  else Ok {| dl_dataset := dataset;
             dl_batch_size := batch_size;
             dl_shuffle := shuffle |}.

(** [train_size = int(0.8 * len(dataset))], the rest is validation. *)
Definition dataset_prep (d : Data) (dataset : list sample)
  : result (DataLoader * DataLoader) :=
  let train_size := 4 * length dataset / 5 in
  let shuffled := split_perm dataset in
  let train_dataset := firstn train_size shuffled in
  let val_dataset := skipn train_size shuffled in
  match new_DataLoader train_dataset (data_batch_size d) (data_shuffle d) with
  | Ok train_dataloader =>
      match new_DataLoader val_dataset (data_batch_size d) false with
      | Ok val_dataloader => Ok (train_dataloader, val_dataloader)
      | Raise e => Raise e
      end
  | Raise e => Raise e
  end.

(** ** Observable operations *)

(** The call sites of a forward pass inside one iteration; the generator's
    carry the latent tensor it is fed, which [forward_generator] itself
    records. *)
Inductive fwd_site :=
| OnReal                          (* discriminator(real) *)
| OnCombinedMap                   (* vae_encoder.forward(combined_map) *)
| OnLatent (z : tensor2)          (* generator(vae_latent_embed_vector) *)
| OnFakeDetached                  (* discriminator(fake.detach()) *)
| OnFake                          (* discriminator(fake) *)
| OnFixedNoise (z : tensor2).     (* generator(fixed_noise) *)

(** The operations on the networks, in the order they are issued. *)
Inductive event :=
| EvRandn (z : tensor2)
| EvZeroGrad (m : module_id)
| EvForward (m : module_id) (site : fwd_site) (grad_on : bool)
| EvBackward (l : loss_kind) (value : scalar)
| EvStep (m : module_id) (consumed : list gterm)
| EvLosses (mode : split) (epoch : nat)
           (gen_error dis_error vae_error total_error : scalar)
| EvPrint (epoch i : nat).

(** ** The state of a run *)

(** A network together with its optimizer: parameters, [.grad] buffer
    (the summands accumulated since it was last cleared) and Adam state. *)
Record module_state := {
  m_params : params;
  m_grad : list gterm;
  m_opt : ostate
}.

(** One file written by [save_image]: directory, name, content. *)
Record file := {
  f_dir : split;
  f_name : string;
  f_image : image
}.

(** The variables of [Training.training].  The source keeps one variable
    per split for the grid lists, the loss histories, the export counters
    and the running sums; here each family is indexed by the split:
    [img_list s Val] is [val_img_list], [split_iters s Train] is
    [train_iters], [n_batches s Val] is [val_batches], and so on.
    [rng_state] is the global generator as the [torch.randn] calls of this
    file see it; what [random_split] and the shuffling loader draw inside
    the library is given by [split_perm] and [shuffle_perm]. *)
Record state := {
  mods : module_id -> module_state;
  grad_enabled : bool;
  rng_state : rng;
  img_list : split -> list grid;
  gen_losses : split -> list scalar;
  dis_losses : split -> list scalar;
  iters : nat;
  split_iters : split -> nat;
  gen_loss : split -> scalar;
  dis_loss : split -> scalar;
  n_batches : split -> nat;
  files : list file
}.

Definition set_mods (v : module_id -> module_state) (s : state) : state :=
  Build_state v (grad_enabled s) (rng_state s) (img_list s) (gen_losses s)
    (dis_losses s) (iters s) (split_iters s) (gen_loss s) (dis_loss s)
    (n_batches s) (files s).

Definition set_grad_enabled (v : bool) (s : state) : state :=
  Build_state (mods s) v (rng_state s) (img_list s) (gen_losses s)
    (dis_losses s) (iters s) (split_iters s) (gen_loss s) (dis_loss s)
    (n_batches s) (files s).

Definition set_rng_state (v : rng) (s : state) : state :=
  Build_state (mods s) (grad_enabled s) v (img_list s) (gen_losses s)
    (dis_losses s) (iters s) (split_iters s) (gen_loss s) (dis_loss s)
    (n_batches s) (files s).

Definition set_img_list (v : split -> list grid) (s : state) : state :=
  Build_state (mods s) (grad_enabled s) (rng_state s) v (gen_losses s)
    (dis_losses s) (iters s) (split_iters s) (gen_loss s) (dis_loss s)
    (n_batches s) (files s).

Definition set_gen_losses (v : split -> list scalar) (s : state) : state :=
  Build_state (mods s) (grad_enabled s) (rng_state s) (img_list s) v
    (dis_losses s) (iters s) (split_iters s) (gen_loss s) (dis_loss s)
    (n_batches s) (files s).

Definition set_dis_losses (v : split -> list scalar) (s : state) : state :=
  Build_state (mods s) (grad_enabled s) (rng_state s) (img_list s)
    (gen_losses s) v (iters s) (split_iters s) (gen_loss s) (dis_loss s)
    (n_batches s) (files s).

Definition set_iters (v : nat) (s : state) : state :=
  Build_state (mods s) (grad_enabled s) (rng_state s) (img_list s)
    (gen_losses s) (dis_losses s) v (split_iters s) (gen_loss s)
    (dis_loss s) (n_batches s) (files s).

Definition set_split_iters (v : split -> nat) (s : state) : state :=
  Build_state (mods s) (grad_enabled s) (rng_state s) (img_list s)
    (gen_losses s) (dis_losses s) (iters s) v (gen_loss s) (dis_loss s)
    (n_batches s) (files s).

Definition set_gen_loss (v : split -> scalar) (s : state) : state :=
  Build_state (mods s) (grad_enabled s) (rng_state s) (img_list s)
    (gen_losses s) (dis_losses s) (iters s) (split_iters s) v (dis_loss s)
    (n_batches s) (files s).

Definition set_dis_loss (v : split -> scalar) (s : state) : state :=
  Build_state (mods s) (grad_enabled s) (rng_state s) (img_list s)
    (gen_losses s) (dis_losses s) (iters s) (split_iters s) (gen_loss s) v
    (n_batches s) (files s).

Definition set_n_batches (v : split -> nat) (s : state) : state :=
  Build_state (mods s) (grad_enabled s) (rng_state s) (img_list s)
    (gen_losses s) (dis_losses s) (iters s) (split_iters s) (gen_loss s)
    (dis_loss s) v (files s).

Definition set_files (v : list file) (s : state) : state :=
  Build_state (mods s) (grad_enabled s) (rng_state s) (img_list s)
    (gen_losses s) (dis_losses s) (iters s) (split_iters s) (gen_loss s)
    (dis_loss s) (n_batches s) v.

Definition upd_split {A : Type} (f : split -> A) (k : split) (v : A)
  : split -> A :=
  fun k' => if split_eqb k k' then v else f k'.

Definition upd_module (f : module_id -> module_state) (m : module_id)
  (v : module_state) : module_id -> module_state :=
  fun m' => if module_eqb m m' then v else f m'.

Definition current_nets (s : state) : nets := {|
  enc_p := m_params (mods s Encoder);
  gen_p := m_params (mods s Generator);
  dis_p := m_params (mods s Discriminator)
|}.

(** ** The monad: state, a log of operations, and exceptions

    A computation maps the state to the new state, the operations it
    issued and either a value or the exception that stopped it; what was
    done before an exception stays done. *)

Record outcome (A : Type) := {
  st : state;
  ev : list event;
  res : result A
}.

Definition M (A : Type) : Type := state -> outcome A.

Definition ret {A : Type} (a : A) : M A :=
  fun s => {| st := s; ev := []; res := Ok a |}.

Definition bind {A B : Type} (m : M A) (k : A -> M B) : M B :=
  fun s =>
    let o := m s in
    match res o with
    | Ok a =>
        let o' := k a (st o) in
        {| st := st o'; ev := ev o ++ ev o'; res := res o' |}
    | Raise e => {| st := st o; ev := ev o; res := Raise e |}
    end.

Definition lift {A : Type} (r : result A) : M A :=
  fun s => {| st := s; ev := []; res := r |}.

Definition get : M state :=
  fun s => {| st := s; ev := []; res := Ok s |}.

Definition modify (f : state -> state) : M unit :=
  fun s => {| st := f s; ev := []; res := Ok tt |}.

Definition emit (e : event) : M unit :=
  fun s => {| st := s; ev := [e]; res := Ok tt |}.

Definition when (b : bool) (m : M unit) : M unit := if b then m else ret tt.

Fixpoint for_each {X : Type} (xs : list X) (body : X -> M unit) : M unit :=
  match xs with
  | [] => ret tt
  | x :: xs' => bind (body x) (fun _ => for_each xs' body)
  end.

Notation "x <- m ;; k" := (bind m (fun x => k))
  (at level 61, m at next level, right associativity) : monad_scope.
Notation "m ;; k" := (bind m (fun _ => k))
  (at level 61, right associativity) : monad_scope.
#[local] Open Scope monad_scope.

(** ** Primitive operations *)

(** [module.zero_grad()]. *)
Definition clear_grad (m : module_id) (s : state) : state :=
  let ms := mods s m in
  set_mods (upd_module (mods s) m
    {| m_params := m_params ms; m_grad := []; m_opt := m_opt ms |}) s.

Definition zero_grad (m : module_id) : M unit :=
  modify (clear_grad m) ;;
  emit (EvZeroGrad m).

(** The modules whose parameters lie in the graph of each loss.  The
    discriminator's fake branch sees [fake.detach()], so its loss reaches
    neither the generator nor the encoder; the composite loss reaches the
    discriminator through [discriminator(fake)], the generator through
    [fake] and the encoder through the latent embedding. *)
Definition receivers (l : loss_kind) : list module_id :=
  match l with
  | DisErrorReal => [Discriminator]
  | DisErrorFake => [Discriminator]
  | TotalError => [Encoder; Generator; Discriminator]
  end.

(** [loss.backward()]: every module in the graph adds one summand to its
    [.grad] buffer. *)
Definition accumulate_grad (l : loss_kind) (data : batch) (s : state)
  : state :=
  let n := current_nets s in
  set_mods (fun m =>
    let ms := mods s m in
    if existsb (module_eqb m) (receivers l)
    then {| m_params := m_params ms;
            m_grad := m_grad ms ++
              [{| g_iter := iters s; g_loss := l;
                  g_val := autograd l m n data |}];
            m_opt := m_opt ms |}
    else ms) s.

Definition backward (l : loss_kind) (value : scalar) (data : batch)
  : M unit :=
  modify (accumulate_grad l data) ;;
  emit (EvBackward l value).

(** [optimizer.step()]: Adam reads the module's [.grad] buffer. *)
Definition apply_step (m : module_id) (s : state) : state :=
  let ms := mods s m in
  let r := adam_step (m_opt ms) (m_params ms) (m_grad ms) in
  set_mods (upd_module (mods s) m
    {| m_params := snd r; m_grad := m_grad ms; m_opt := fst r |}) s.

Definition optimizer_step (m : module_id) : M unit :=
  s <- get ;;
  modify (apply_step m) ;;
  emit (EvStep m (m_grad (mods s m))).

Definition forward_encoder (x : list cmap) : M tensor2 :=
  s <- get ;;
  emit (EvForward Encoder OnCombinedMap (grad_enabled s)) ;;
  ret (encoder_fwd (m_params (mods s Encoder)) x).

(** The generator's forward pass records the tensor it is given, under
    the call site [site]. *)
Definition forward_generator (site : tensor2 -> fwd_site) (z : tensor2)
  : M (list image) :=
  s <- get ;;
  emit (EvForward Generator (site z) (grad_enabled s)) ;;
  ret (generator_fwd (m_params (mods s Generator)) z).

Definition forward_discriminator (site : fwd_site) (x : list image)
  : M (list scalar) :=
  s <- get ;;
  emit (EvForward Discriminator site (grad_enabled s)) ;;
  ret (discriminator_fwd (m_params (mods s Discriminator)) x).

(** [torch.no_grad] as a context manager.  Constructing the object only
    records [prev = False]; the gradient mode changes on [__enter__] and is
    put back on [__exit__]. *)
Record no_grad_ctx := { prev : bool }.

Definition no_grad : M no_grad_ctx := ret {| prev := false |}.

Definition no_grad_enter (c : no_grad_ctx) : M no_grad_ctx :=
  s <- get ;;
  modify (set_grad_enabled false) ;;
  ret {| prev := grad_enabled s |}.

Definition no_grad_exit (c : no_grad_ctx) : M unit :=
  modify (set_grad_enabled (prev c)).

(** [with cm: body]: [__exit__] runs whether or not the body raises. *)
Definition with_ {A : Type} (cm : M no_grad_ctx) (body : M A) : M A :=
  c <- cm ;;
  c <- no_grad_enter c ;;
  fun s =>
    let o := body s in
    {| st := st (no_grad_exit c (st o)); ev := ev o; res := res o |}.

(** [torch.randn(rows, cols, 1, 1)]: draws from the global generator,
    which moves on. *)
Definition torch_randn (rows cols : nat) : M tensor2 :=
  s <- get ;;
  let r := randn (rng_state s) rows cols in
  modify (set_rng_state (snd r)) ;;
  emit (EvRandn (fst r)) ;;
  ret (fst r).

(** [nn.functional.normalize(x)]: each row divided by
    [max(norm, 1e-12)]. *)
Definition normalize (x : tensor2) : tensor2 :=
  map (fun row =>
         map (fun v =>
                t_div v (t_max (l2norm row) (lit (1 # 1000000000000))))
             row) x.

(** [t[i]] along the first axis. *)
Definition index {A : Type} (t : list A) (i : nat) : result A :=
  match nth_error t i with
  | Some a => Ok a
  | None => Raise IndexError
  end.

(** [torchvision.utils.save_image(tensor, fp=os.path.join(dir, name))]. *)
Definition write_file (tensor : image) (dir : split) (name : string)
  (s : state) : state :=
  set_files (files s ++
    [{| f_dir := dir; f_name := name; f_image := tensor |}]) s.

Definition save_image (tensor : image) (dir : split) (name : string)
  : M unit :=
  modify (write_file tensor dir name).

(** ** One iteration of the batch loop (lines 195-316) *)

Definition is_train (mode : split) : bool := split_eqb mode Train.

(** [epoch == self.n_epochs - 1] and [i == len(loader) - 1], on Python's
    unbounded integers. *)
Definition is_last_epoch (self : Training) (epoch : nat) : bool :=
  (Z.of_nat epoch =? Z.of_nat (n_epochs self) - 1)%Z.

Definition is_last_index (i : nat) (loader : DataLoader) : bool :=
  (Z.of_nat i =? Z.of_nat (loader_len loader) - 1)%Z.

(** Lines 217-223: encoder, normalisation, concatenation with [dI],
    reshape to the generator's input layout. *)
Definition latent_vector (self : Training) (data : batch) (b_size : nat)
  : M tensor2 :=
  vae_latent_embedding <- forward_encoder (combined_map data) ;;
  let vae_latent_embedding := normalize vae_latent_embedding in
  let di := dI data in
  vae_latent_embedding_with_di <-
    lift (torch_cat_dim1 vae_latent_embedding di) ;;
  lift (torch_reshape vae_latent_embedding_with_di b_size
          (total_latent_dims self)).

(** Lines 201-241: the discriminator on the real and on the fake batch.
    Returns the fake batch and the discriminator's error. *)
Definition update_discriminator (self : Training) (mode : split)
  (data : batch) : M (list image * scalar) :=
  zero_grad Discriminator ;;
  let real := delta_vmap data in
  let b_size := length real in
  let label := repeat (lit (label_real self)) b_size in
  output <- forward_discriminator OnReal real ;;
  let dis_error_real := criterion output label in
  when (is_train mode) (backward DisErrorReal dis_error_real data) ;;
  vae_latent_embed_vector <- latent_vector self data b_size ;;
  fake <- forward_generator OnLatent vae_latent_embed_vector ;;
  let label := repeat (lit (label_fake self)) b_size in
  output <- forward_discriminator OnFakeDetached fake ;;
  let dis_error_fake := criterion output label in
  when (is_train mode) (backward DisErrorFake dis_error_fake data) ;;
  let dis_error := t_add dis_error_real dis_error_fake in
  when (is_train mode) (optimizer_step Discriminator) ;;
  ret (fake, dis_error).

(** Line 259:
    [gen_error + (- self.vae_loss_scaling_factor * vae_error)]; the unary
    minus binds tighter than the product and acts on the Python float. *)
Definition total_error_of (self : Training) (gen_error vae_error : scalar)
  : scalar :=
  t_add gen_error
    (t_mul (py_neg (lit (vae_loss_scaling_factor self))) vae_error).

(** Lines 246-268: the generator and the encoder.  Returns the
    generator's adversarial error. *)
Definition update_generator (self : Training) (mode : split) (epoch : nat)
  (data : batch) (fake : list image) (dis_error : scalar) : M scalar :=
  zero_grad Generator ;;
  let label := repeat (lit (label_real self)) (length (delta_vmap data)) in
  output <- forward_discriminator OnFake fake ;;
  let gen_error := criterion output label in
  let delta_vmaps := delta_vmap data in
  let softmax_fake := map softmax_dim2 fake in
  let softmax_d_vmaps := map softmax_dim2 delta_vmaps in
  let vae_error := vae_criterion softmax_fake softmax_d_vmaps in
  let total_error := total_error_of self gen_error vae_error in
  emit (EvLosses mode epoch gen_error dis_error vae_error total_error) ;;
  when (is_train mode)
    (backward TotalError total_error data ;;
     optimizer_step Generator ;;
     optimizer_step Encoder) ;;
  ret gen_error.

(** Lines 279-281 and 298-300. *)
Definition count_batch (mode : split) (gen_error dis_error : scalar)
  (s : state) : state :=
  set_n_batches (upd_split (n_batches s) mode (n_batches s mode + 1))
    (set_dis_loss (upd_split (dis_loss s) mode
                     (py_add (dis_loss s mode) dis_error))
       (set_gen_loss (upd_split (gen_loss s) mode
                        (py_add (gen_loss s mode) gen_error)) s)).

Definition add_losses (mode : split) (gen_error dis_error : scalar)
  : M unit :=
  modify (count_batch mode gen_error dis_error).

Definition bump_split_iters (dir : split) (s : state) : state :=
  set_split_iters (upd_split (split_iters s) dir (split_iters s dir + 1)) s.

(** Lines 285-290 and 304-309: the export of one batch, then the
    increment of the split's export counter. *)
Definition export_images (self : Training) (dir : split)
  (fake real : list image) : M unit :=
  s <- get ;;
  let base := split_iters s dir * batch_size self in
  for_each (seq 0 (length fake)) (fun i =>
    f <- lift (index fake i) ;;
    save_image f dir (gen_name (base + i)) ;;
    r <- lift (index real i) ;;
    save_image r dir (real_name (base + i))) ;;
  modify (bump_split_iters dir).

(** The value of [i] after [for i in range(n)]: the loop variable is the
    function's own [i], so the batch index is lost as soon as the range
    is not empty. *)
Definition range_last (i n : nat) : nat :=
  match n with
  | O => i
  | S k => k
  end.

Definition push_grid (mode : split) (g : grid) (s : state) : state :=
  set_img_list (upd_split (img_list s) mode (img_list s mode ++ [g])) s.

Definition append_grid (mode : split) (g : grid) : M unit :=
  modify (push_grid mode g).

Definition bump_iters (s : state) : state := set_iters (iters s + 1) s.

(** The test of lines 293 and 312:
    [(iters % 500 == 0) or ((epoch == self.n_epochs - 1)
                            and (i == len(loader) - 1))]. *)
Definition checkpoint_due (self : Training) (loader : DataLoader)
  (epoch i : nat) (s : state) : bool :=
  (iters s mod 500 =? 0)
  || (is_last_epoch self epoch && is_last_index i loader).

(** Lines 278-316. *)
Definition record_progress (self : Training)
  (train_dataloader loader : DataLoader) (fixed_noise : tensor2)
  (epoch : nat) (mode : split) (i : nat) (fake real : list image)
  (gen_error dis_error : scalar) : M unit :=
  match mode with
  | Train =>
      add_losses Train gen_error dis_error ;;
      i <- (if is_last_epoch self epoch
            then export_images self Train fake real ;;
                 ret (range_last i (length fake))
            else ret i) ;;
      s <- get ;;
      when (checkpoint_due self train_dataloader epoch i s)
        (fake <- with_ no_grad
                   (forward_generator OnFixedNoise fixed_noise) ;;
         append_grid Train (make_grid fake))
  | Val =>
      add_losses Val gen_error dis_error ;;
      i <- (if is_last_epoch self epoch
            then export_images self Val fake real ;;
                 ret (range_last i (length fake))
            else ret i) ;;
      s <- get ;;
      when (checkpoint_due self loader epoch i s)
        (fake <- forward_generator OnFixedNoise fixed_noise ;;
         append_grid Val (make_grid fake))
  end ;;
  modify bump_iters.

Definition iteration (self : Training)
  (train_dataloader loader : DataLoader) (fixed_noise : tensor2)
  (epoch : nat) (mode : split) (i : nat) (data : batch) : M unit :=
  r <- update_discriminator self mode data ;;
  gen_error <- update_generator self mode epoch data (fst r) (snd r) ;;
  when (i mod 50 =? 0) (emit (EvPrint epoch i)) ;;
  record_progress self train_dataloader loader fixed_noise epoch mode i
    (fst r) (delta_vmap data) gen_error (snd r).

(** ** The epoch loop (lines 185-327) *)

(** [x / n] with a Python integer [n]. *)
Definition py_div (x : scalar) (n : nat) : result scalar :=
  if n =? 0 then Raise ZeroDivisionError
  else Ok (py_truediv x (of_int n)).

Definition push_gen_loss (mode : split) (x : scalar) (s : state) : state :=
  set_gen_losses (upd_split (gen_losses s) mode (gen_losses s mode ++ [x])) s.

Definition push_dis_loss (mode : split) (x : scalar) (s : state) : state :=
  set_dis_losses (upd_split (dis_losses s) mode (dis_losses s mode ++ [x])) s.

(** Lines 188-325: one pass over a split, then its two averages. *)
Definition run_split (self : Training)
  (train_dataloader val_dataloader : DataLoader) (fixed_noise : tensor2)
  (epoch : nat) (mode : split) : M unit :=
  loader <- match mode with
            | Train => ret train_dataloader
            | Val => no_grad ;; ret val_dataloader
            end ;;
  for_each (enumerate (loader_batches epoch loader))
    (fun p => iteration self train_dataloader loader fixed_noise epoch mode
                (fst p) (snd p)) ;;
  s <- get ;;
  g <- lift (py_div (gen_loss s mode) (n_batches s mode)) ;;
  modify (push_gen_loss mode g) ;;
  d <- lift (py_div (dis_loss s mode) (n_batches s mode)) ;;
  modify (push_dis_loss mode d).

(** Line 186. *)
Definition clear_sums (s : state) : state :=
  set_gen_loss (fun _ => of_int 0)
    (set_dis_loss (fun _ => of_int 0) (set_n_batches (fun _ => 0) s)).

Definition reset_sums : M unit := modify clear_sums.

Definition run_epoch (self : Training)
  (train_dataloader val_dataloader : DataLoader) (fixed_noise : tensor2)
  (epoch : nat) : M unit :=
  reset_sums ;;
  for_each [Train; Val]
    (run_split self train_dataloader val_dataloader fixed_noise epoch).

Definition artifacts : Type :=
  list grid * list grid
  * list scalar * list scalar * list scalar * list scalar.

(** Lines 158-327, once the three networks exist. *)
Definition training_body (self : Training) (dataset : list sample)
  : M artifacts :=
  fixed_noise <- torch_randn 64 (total_latent_dims self) ;;
  loaders <- lift (dataset_prep Data_init dataset) ;;
  let train_dataloader := fst loaders in
  let val_dataloader := snd loaders in
  for_each (seq 0 (n_epochs self))
    (run_epoch self train_dataloader val_dataloader fixed_noise) ;;
  s <- get ;;
  ret (img_list s Train, img_list s Val,
       gen_losses s Train, dis_losses s Train,
       gen_losses s Val, dis_losses s Val).

(** The state at line 158: the generator seeded and the networks just
    built and initialised, their optimizers fresh, gradients enabled,
    every list empty, every counter zero, both output directories
    recreated. *)
Definition fresh_module (self : Training) (p : params) (lr : Q)
  : module_state :=
  {| m_params := p; m_grad := []; m_opt := adam_init lr (betas self) |}.

Definition fresh (self : Training) (n : nets) : state := {|
  mods := fun m =>
    match m with
    | Encoder => fresh_module self (enc_p n) (vae_lr self)
    | Generator => fresh_module self (gen_p n) (gen_lr self)
    | Discriminator => fresh_module self (dis_p n) (dis_lr self)
    end;
  grad_enabled := true;
  rng_state := initial_rng (manualSeed self);
  img_list := fun _ => [];
  gen_losses := fun _ => [];
  dis_losses := fun _ => [];
  iters := 0;
  split_iters := fun _ => 0;
  gen_loss := fun _ => of_int 0;
  dis_loss := fun _ => of_int 0;
  n_batches := fun _ => 0;
  files := []
|}.

(** [Training.training] and [Training.execute]. *)
Definition training (self : Training) (n : nets) (dataset : list sample)
  : outcome artifacts :=
  training_body self dataset (fresh self n).

Definition execute (self : Training) (n : nets) (dataset : list sample)
  : outcome artifacts :=
  training self n dataset.

End Model.

Notation "x <- m ;; k" := (bind m (fun x => k))
  (at level 61, m at next level, right associativity) : monad_scope.
Notation "m ;; k" := (bind m (fun _ => k))
  (at level 61, right associativity) : monad_scope.

(** The state transformers and the tensor operations stay folded when a
    program is run symbolically. *)
Arguments clear_grad : simpl never.
Arguments accumulate_grad : simpl never.
Arguments apply_step : simpl never.
Arguments write_file : simpl never.
Arguments count_batch : simpl never.
Arguments bump_split_iters : simpl never.
Arguments push_grid : simpl never.
Arguments bump_iters : simpl never.
Arguments push_gen_loss : simpl never.
Arguments push_dis_loss : simpl never.
Arguments clear_sums : simpl never.
Arguments set_grad_enabled : simpl never.
Arguments set_rng_state : simpl never.
Arguments torch_cat_dim1 : simpl never.
Arguments torch_reshape : simpl never.
Arguments normalize : simpl never.
Arguments py_div : simpl never.
Arguments export_images : simpl never.
Arguments checkpoint_due : simpl never.
Arguments is_last_epoch : simpl never.
Arguments is_last_index : simpl never.
Arguments gen_name : simpl never.
Arguments real_name : simpl never.

(** ** A small concrete backend

    Enough to run the loop: parameters are version numbers that every
    optimizer step increments, a generated image remembers the generator
    version that produced it, and the encoder emits rows of [latent_dims]
    zeros. *)
Module Toy.

#[export] Instance carriers : Carriers := {|
  scalar := Q;
  image := nat;
  cmap := nat;
  grid := list nat;
  params := nat;
  gradv := unit;
  ostate := nat;
  rng := nat
|}.

#[export] Instance backend : Backend := {|
  lit := fun q => q;
  of_int := fun n => inject_Z (Z.of_nat n);
  t_add := Qplus;
  t_sub := Qminus;
  t_mul := Qmult;
  t_neg := Qopp;
  t_div := Qdiv;
  t_max := Qmax;
  py_neg := Qopp;
  py_add := Qplus;
  py_truediv := Qdiv;
  encoder_fwd := fun _ x => map (fun _ => repeat 0%Q 64) x;
  generator_fwd := fun p z => map (fun _ => p) z;
  discriminator_fwd := fun _ x => map (fun _ => (1 # 2)%Q) x;
  l2norm := fun _ => 1%Q;
  criterion := fun output _ => inject_Z (Z.of_nat (length output));
  softmax_dim2 := fun x => x;
  vae_criterion := fun _ _ => 3%Q;
  autograd := fun _ _ _ _ => tt;
  adam_init := fun _ _ => 0;
  adam_step := fun o p _ => (S o, S p);
  initial_rng := fun seed => seed;
  randn := fun r rows cols =>
             (repeat (repeat (inject_Z (Z.of_nat r)) cols) rows, S r);
  make_grid := fun x => x;
  split_perm := fun l => l;
  shuffle_perm := fun _ l => l
|}.

(** A well-shaped item: [dI] has 448 - 64 entries. *)
Definition item (k : nat) : sample :=
  {| s_delta_vmap := k; s_dI := repeat 0%Q 384; s_combined_map := k |}.

(** An item whose [dI] has a single entry. *)
Definition short_item (k : nat) : sample :=
  {| s_delta_vmap := k; s_dI := [0%Q]; s_combined_map := k |}.

Definition nets0 : nets := {| enc_p := 0; gen_p := 0; dis_p := 0 |}.

(** Three items: two go to the train split, one to validation. *)
Definition dataset3 : list sample := [item 0; item 1; item 2].

Definition run2 : outcome artifacts :=
  training (Training_init 2) nets0 dataset3.


(** The loaders [Data().dataset_prep()] builds for [dataset3], and the
    evaluation latent. *)
Definition loaders3 : DataLoader * DataLoader :=
  ({| dl_dataset := [item 0; item 1];
      dl_batch_size := 16;
      dl_shuffle := true |},
   {| dl_dataset := [item 2];
      dl_batch_size := 16;
      dl_shuffle := false |}).

Definition noise : tensor2 := fst (randn (initial_rng 1000) 64 448).

(** The train pass of the only epoch of a one-epoch run, and the
    validation pass that follows it. *)
Definition train_pass : outcome unit :=
  run_split (Training_init 1) (fst loaders3) (snd loaders3) noise 0 Train
    (clear_sums (fresh (Training_init 1) nets0)).

Definition validation_pass : outcome unit :=
  run_split (Training_init 1) (fst loaders3) (snd loaders3) noise 0 Val
    (st train_pass).

(** Three items whose [dI] is too short for [total_latent_dims]. *)
Definition short_dataset : list sample :=
  [short_item 0; short_item 1; short_item 2].

Definition short_batch : batch := collate [short_item 0; short_item 1].

End Toy.

(** * Vocabulary of the properties *)

Section Vocabulary.
Context {C : Carriers} {B : Backend}.

(** [L_gen - scale * L_vae] with the scale 0.01, in tensor arithmetic. *)
Definition composite (gen_error vae_error : scalar) : scalar :=
  t_sub gen_error (t_mul (lit (1 # 100)) vae_error).

(** The composite loss of a batch is the generator's adversarial loss
    minus 0.01 times the distributional-similarity loss, and a backward
    pass of the composite loss differentiates such a value. *)
Definition composite_loss_ok (e : event) : Prop :=
  match e with
  | EvLosses _ _ gen_error _ vae_error total_error =>
      total_error = composite gen_error vae_error
  | _ => True
  end.

(** The adversarial generator loss of a batch of [b] samples: the
    criterion on the discriminator's output for the fake batch against [b]
    labels 1.0, with the discriminator's parameters [d] (lines 247-251). *)
Definition adversarial_loss (d : params) (fake : list image) (b : nat)
  : scalar :=
  criterion (discriminator_fwd d fake) (repeat (lit 1) b).

(** The distributional-similarity loss of a batch (lines 255-257). *)
Definition similarity_loss (fake real : list image) : scalar :=
  vae_criterion (map softmax_dim2 fake) (map softmax_dim2 real).

(** The discriminator's loss of a batch: real branch against 1.0 plus
    fake branch against 0.0, with the discriminator's parameters [d]
    (lines 205-238). *)
Definition discriminator_loss (d : params) (fake real : list image)
  : scalar :=
  t_add (criterion (discriminator_fwd d real)
           (repeat (lit 1) (length real)))
        (criterion (discriminator_fwd d fake)
           (repeat (lit 0) (length real))).

Definition is_backward (e : event) : bool :=
  match e with EvBackward _ _ => true | _ => false end.

(** A grid made of the generator's images of the latent [z]. *)
Definition grid_of (z : tensor2) (g : grid) : Prop :=
  exists p, g = make_grid (generator_fwd p z).

(** After the draw no further noise is sampled, and every generator call on
    the evaluation latent is fed [z]. *)
Definition uses_noise (z : tensor2) (e : event) : Prop :=
  match e with
  | EvRandn _ => False
  | EvForward _ (OnFixedNoise z') _ => z' = z
  | _ => True
  end.

(** The latent vector as a function of the encoder's parameters. *)
Definition latent_of (self : Training) (data : batch) (b_size : nat)
  (p : params) : result tensor2 :=
  match torch_cat_dim1 (normalize (encoder_fwd p (combined_map data)))
          (dI data) with
  | Ok x => torch_reshape x b_size (total_latent_dims self)
  | Raise e => Raise e
  end.

(** A state change made in the train phase only. *)
Definition when_train (mode : split) (f : state -> state) (s : state)
  : state :=
  if is_train mode then f s else s.

(** Operations issued in the train phase only. *)
Definition if_train (mode : split) (l : list event) : list event :=
  if is_train mode then l else [].

(** The state when the latent vector is built. *)
Definition before_latent (mode : split) (data : batch) (s : state) : state :=
  when_train mode (accumulate_grad DisErrorReal data)
    (clear_grad Discriminator s).

(** The state after the discriminator phase of an iteration. *)
Definition after_discriminator (mode : split) (data : batch) (s : state)
  : state :=
  when_train mode (apply_step Discriminator)
    (when_train mode (accumulate_grad DisErrorFake data)
       (before_latent mode data s)).

(** The state after the generator phase of an iteration. *)
Definition after_generator (mode : split) (data : batch) (s : state)
  : state :=
  when_train mode (apply_step Encoder)
    (when_train mode (apply_step Generator)
       (when_train mode (accumulate_grad TotalError data)
          (clear_grad Generator s))).

(** The four operations whose order matters within a train iteration. *)
Definition is_dis_step (e : event) : bool :=
  match e with EvStep Discriminator _ => true | _ => false end.

Definition is_gen_loss_forward (e : event) : bool :=
  match e with EvForward Discriminator OnFake _ => true | _ => false end.

Definition is_total_backward (e : event) : bool :=
  match e with EvBackward TotalError _ => true | _ => false end.

Definition is_enc_step (e : event) : bool :=
  match e with EvStep Encoder _ => true | _ => false end.

(** [before p q l]: in the sequence [l], every operation satisfying [q]
    comes strictly after some operation satisfying [p]. *)
Definition before (p q : event -> bool) (l : list event) : Prop :=
  forall l1 e l2, l = l1 ++ e :: l2 -> q e = true -> existsb p l1 = true.

(** The same, as a scan that remembers whether [p] was seen. *)
Fixpoint beforeb (p q : event -> bool) (seen : bool) (l : list event)
  : bool :=
  match l with
  | [] => true
  | e :: l' => (if q e then seen else true) && beforeb p q (seen || p e) l'
  end.

(** The gradient mode of every forward pass in a sequence of operations. *)
Definition forward_modes (l : list event) : list bool :=
  flat_map (fun e => match e with
                     | EvForward _ _ g => [g]
                     | _ => []
                     end) l.

Definition is_step (e : event) : bool :=
  match e with EvStep _ _ => true | _ => false end.

(** The gradient summands each step of a module's optimizer consumed. *)
Definition consumed_by (m : module_id) (l : list event)
  : list (list gterm) :=
  flat_map (fun e => match e with
                     | EvStep m' g => if module_eqb m m' then [g] else []
                     | _ => []
                     end) l.

Definition is_generator_forward (e : event) : bool :=
  match e with EvForward Generator _ _ => true | _ => false end.

Definition is_losses (e : event) : bool :=
  match e with EvLosses _ _ _ _ _ _ => true | _ => false end.

(** The two files exported for position [j] of a batch. *)
Definition pair_files (dir : split) (base j : nat) (f r : image)
  : list file :=
  [ {| f_dir := dir; f_name := gen_name (base + j); f_image := f |};
    {| f_dir := dir; f_name := real_name (base + j); f_image := r |} ].

(** The files exported for a batch: for every position of the generated
    batch, in order, the generated image and the real image of that
    position. *)
Definition exported (dir : split) (base : nat) (fake real : list image)
  : list file :=
  flat_map (fun j =>
              match nth_error fake j, nth_error real j with
              | Some f, Some r => pair_files dir base j f r
              | _, _ => []
              end) (seq 0 (length fake)).

(** [wp m s P]: started in [s], the computation [m] returns normally, and
    its value, final state and issued operations satisfy [P]. *)
Definition wp {A : Type} (m : M A) (s : state)
  (P : A -> state -> list event -> Prop) : Prop :=
  match res (m s) with
  | Ok a => P a (st (m s)) (ev (m s))
  | Raise _ => False
  end.

(** *** Reading a file name back *)









(** *** Loss histories *)













End Vocabulary.

(** * Properties of the loop *)

Section Theory.
Context {C : Carriers} {B : Backend}.

#[local] Open Scope monad_scope.

(** ** Running a sequence *)

Lemma bind_ok (A X : Type) (m : M A) (k : A -> M X) (s : state) (a : A) :
  res (m s) = Ok a ->
  bind m k s =
  {| st := st (k a (st (m s)));
     ev := ev (m s) ++ ev (k a (st (m s)));
     res := res (k a (st (m s))) |}.
Proof. intros H. unfold bind. rewrite H. reflexivity. Qed.

Lemma bind_raise (A X : Type) (m : M A) (k : A -> M X) (s : state) (e : exn) :
  res (m s) = Raise e ->
  bind m k s = {| st := st (m s); ev := ev (m s); res := Raise e |}.
Proof. intros H. unfold bind. rewrite H. reflexivity. Qed.

(** ** State invariants and properties of every issued operation *)

(** [maintains I p m]: started in a state satisfying [I], the computation
    [m] ends (normally or not) in a state satisfying [I], and every
    operation it issued satisfies [p]. *)
Definition maintains {A : Type} (I : state -> Prop) (p : event -> Prop)
  (m : M A) : Prop :=
  forall s, I s -> I (st (m s)) /\ Forall p (ev (m s)).

Lemma maintains_ret (A : Type) I p (a : A) : maintains I p (ret a).
Proof. intros s H. split; [exact H | constructor]. Qed.

Lemma maintains_lift (A : Type) I p (r : result A) : maintains I p (lift r).
Proof. intros s H. split; [exact H | constructor]. Qed.

Lemma maintains_get I p : maintains I p get.
Proof. intros s H. split; [exact H | constructor]. Qed.

Lemma maintains_modify I p (f : state -> state) :
  (forall s, I s -> I (f s)) -> maintains I p (modify f).
Proof. intros Hf s H. split; [apply Hf, H | constructor]. Qed.

Lemma maintains_emit I (p : event -> Prop) (e : event) :
  p e -> maintains I p (emit e).
Proof. intros He s H. split; [exact H | repeat constructor; exact He]. Qed.

Lemma maintains_bind (A X : Type) I p (m : M A) (k : A -> M X) :
  maintains I p m -> (forall a, maintains I p (k a)) ->
  maintains I p (bind m k).
Proof.
  intros Hm Hk s H. destruct (Hm s H) as [H1 E1]. unfold bind.
  destruct (res (m s)) as [a | e]; simpl.
  - destruct (Hk a _ H1) as [H2 E2]. split; [exact H2 |].
    apply Forall_app. split; assumption.
  - split; assumption.
Qed.

Lemma maintains_when I p (b : bool) (m : M unit) :
  (b = true -> maintains I p m) -> maintains I p (when b m).
Proof.
  intros Hm. destruct b; simpl; [apply Hm; reflexivity | apply maintains_ret].
Qed.

Lemma maintains_for_each (X : Type) I p (xs : list X) (body : X -> M unit) :
  (forall x, In x xs -> maintains I p (body x)) ->
  maintains I p (for_each xs body).
Proof.
  induction xs as [| x xs IH]; intros H; simpl.
  - apply maintains_ret.
  - apply maintains_bind.
    + apply H. left. reflexivity.
    + intros _. apply IH. intros y Hy. apply H. right. exact Hy.
Qed.

Lemma maintains_with (A : Type) I p (body : M A) :
  (forall b s, I s -> I (set_grad_enabled b s)) ->
  maintains I p body -> maintains I p (with_ no_grad body).
Proof.
  intros Hg Hb s H. unfold with_, no_grad, no_grad_enter, no_grad_exit.
  unfold bind, ret, get, modify; simpl.
  destruct (Hb (set_grad_enabled false s) (Hg _ _ H)) as [H1 E1].
  split; [apply Hg, H1 | exact E1].
Qed.

Lemma maintains_weaken (A : Type) I (p q : event -> Prop) (m : M A) :
  (forall e, p e -> q e) -> maintains I p m -> maintains I q m.
Proof.
  intros Hpq Hm s H. destruct (Hm s H) as [H1 E1]. split; [exact H1 |].
  eapply Forall_impl; [exact Hpq | exact E1].
Qed.

(** Decomposition of a program into its primitive operations. *)
Ltac maintain_step :=
  lazymatch goal with
  | |- maintains _ _ (bind _ _) => apply maintains_bind; [| intros ?]
  | |- maintains _ _ (ret _) => apply maintains_ret
  | |- maintains _ _ (lift _) => apply maintains_lift
  | |- maintains _ _ get => apply maintains_get
  | |- maintains _ _ no_grad => apply maintains_ret
  | |- maintains _ _ (when _ _) => apply maintains_when; intros ?
  | |- maintains _ _ (for_each _ _) => apply maintains_for_each; intros ? ?
  | |- maintains _ _ (if ?b then _ else _) => destruct b
  | |- maintains _ _ (match ?m with Train => _ | Val => _ end) => destruct m
  end.

(** How the primitive operations fare: those on the networks touch only
    [mods], and each issues one operation. *)
Section Primitives.
Variable I : state -> Prop.
Variable p : event -> Prop.
Hypothesis I_mods : forall f s, I s -> I (set_mods f s).

Lemma maintains_zero_grad (m : module_id) :
  p (EvZeroGrad m) -> maintains I p (zero_grad m).
Proof.
  intros Hp. unfold zero_grad. apply maintains_bind.
  - apply maintains_modify. intros s H. apply I_mods, H.
  - intros _. apply maintains_emit, Hp.
Qed.

Lemma maintains_backward (l : loss_kind) (v : scalar) (data : batch) :
  p (EvBackward l v) -> maintains I p (backward l v data).
Proof.
  intros Hp. unfold backward. apply maintains_bind.
  - apply maintains_modify. intros s H. apply I_mods, H.
  - intros _. apply maintains_emit, Hp.
Qed.

Lemma maintains_optimizer_step (m : module_id) :
  (forall g, p (EvStep m g)) -> maintains I p (optimizer_step m).
Proof.
  intros Hp. unfold optimizer_step. apply maintains_bind.
  - apply maintains_get.
  - intros s0. apply maintains_bind.
    + apply maintains_modify. intros s H. apply I_mods, H.
    + intros _. apply maintains_emit, Hp.
Qed.

Lemma maintains_forward_encoder (x : list cmap) :
  (forall g, p (EvForward Encoder OnCombinedMap g)) ->
  maintains I p (forward_encoder x).
Proof.
  intros Hp. unfold forward_encoder.
  repeat maintain_step. apply maintains_emit, Hp.
Qed.

Lemma maintains_forward_generator (site : tensor2 -> fwd_site)
  (z : tensor2) :
  (forall g, p (EvForward Generator (site z) g)) ->
  maintains I p (forward_generator site z).
Proof.
  intros Hp. unfold forward_generator.
  repeat maintain_step. apply maintains_emit, Hp.
Qed.

Lemma maintains_forward_discriminator (site : fwd_site) (x : list image) :
  (forall g, p (EvForward Discriminator site g)) ->
  maintains I p (forward_discriminator site x).
Proof.
  intros Hp. unfold forward_discriminator.
  repeat maintain_step. apply maintains_emit, Hp.
Qed.

End Primitives.

(** ** The operations the epoch loop can issue *)

(** Whatever holds of every operation that occurs in the text of the loop
    holds of every operation a run issues after the noise is drawn, and
    whatever the bookkeeping of the loop and a grid of the evaluation
    latent preserve is preserved by the loop. *)
Section LoopEvents.
Variable self : Training.
Variable fixed_noise : tensor2.
Variable I : state -> Prop.
Variable p : event -> Prop.
Hypothesis I_mods : forall f s, I s -> I (set_mods f s).
Hypothesis I_grad : forall b s, I s -> I (set_grad_enabled b s).
Hypothesis I_count : forall m g d s, I s -> I (count_batch m g d s).
Hypothesis I_file : forall t d n s, I s -> I (write_file t d n s).
Hypothesis I_split_iters : forall d s, I s -> I (bump_split_iters d s).
Hypothesis I_iters : forall s, I s -> I (bump_iters s).
Hypothesis I_gen_loss : forall m x s, I s -> I (push_gen_loss m x s).
Hypothesis I_dis_loss : forall m x s, I s -> I (push_dis_loss m x s).
Hypothesis I_sums : forall s, I s -> I (clear_sums s).
Hypothesis I_grid :
  forall m q s, I s ->
    I (push_grid m (make_grid (generator_fwd q fixed_noise)) s).
Hypothesis p_zero_grad : forall m, p (EvZeroGrad m).
Hypothesis p_forward :
  forall m site g, (forall z, site <> OnFixedNoise z) ->
                   p (EvForward m site g).
Hypothesis p_sample :
  forall g, p (EvForward Generator (OnFixedNoise fixed_noise) g).
Hypothesis p_backward : forall l v, p (EvBackward l v).
Hypothesis p_step : forall m g, p (EvStep m g).
Hypothesis p_losses :
  forall mode epoch g d v,
    p (EvLosses mode epoch g d v (total_error_of self g v)).
Hypothesis p_print : forall e i, p (EvPrint e i).

(** A checkpoint: the generator on the evaluation latent, then the grid. *)
Lemma maintains_checkpoint (m : split) :
  maintains I p
    (fake <- forward_generator OnFixedNoise fixed_noise ;;
     append_grid m (make_grid fake)).
Proof.
  intros s H. cbn. split.
  - apply I_grid, H.
  - repeat constructor. apply p_sample.
Qed.

Lemma maintains_checkpoint_no_grad (m : split) :
  maintains I p
    (fake <- with_ no_grad (forward_generator OnFixedNoise fixed_noise) ;;
     append_grid m (make_grid fake)).
Proof.
  intros s H. cbn. split.
  - apply I_grid, I_grad, I_grad, H.
  - repeat constructor. apply p_sample.
Qed.

Ltac events_step :=
  first
    [ apply maintains_checkpoint
    | apply maintains_checkpoint_no_grad
    | maintain_step
    | apply maintains_modify; intros ? ?;
      first [ apply I_count | apply I_file | apply I_split_iters
            | apply I_iters | apply I_gen_loss | apply I_dis_loss
            | apply I_sums ]; assumption
    | apply maintains_zero_grad; [exact I_mods | apply p_zero_grad]
    | apply maintains_backward; [exact I_mods | apply p_backward]
    | apply maintains_optimizer_step;
      [exact I_mods | intros; apply p_step]
    | apply maintains_forward_encoder;
      intros; apply p_forward; intros ?; discriminate
    | apply maintains_forward_discriminator;
      intros; apply p_forward; intros ?; discriminate
    | apply maintains_forward_generator;
      intros; apply p_forward; intros ?; discriminate
    | apply maintains_emit; first [apply p_losses | apply p_print] ].

Lemma events_update_discriminator mode data :
  maintains I p (update_discriminator self mode data).
Proof. unfold update_discriminator, latent_vector. repeat events_step. Qed.

Lemma events_update_generator mode epoch data fake dis_error :
  maintains I p (update_generator self mode epoch data fake dis_error).
Proof. unfold update_generator. repeat events_step. Qed.

Lemma events_record_progress tl l epoch mode i fake real g d :
  maintains I p
    (record_progress self tl l fixed_noise epoch mode i fake real g d).
Proof.
  unfold record_progress, add_losses, export_images, save_image.
  repeat events_step.
Qed.

Lemma events_iteration tl l epoch mode i data :
  maintains I p (iteration self tl l fixed_noise epoch mode i data).
Proof.
  unfold iteration. repeat events_step.
  - apply events_update_discriminator.
  - apply events_update_generator.
  - apply events_record_progress.
Qed.

Lemma events_run_epoch tl vl epoch :
  maintains I p (run_epoch self tl vl fixed_noise epoch).
Proof.
  unfold run_epoch, reset_sums, run_split. repeat events_step.
  all: apply events_iteration.
Qed.

Lemma events_epochs tl vl epochs :
  maintains I p (for_each epochs (run_epoch self tl vl fixed_noise)).
Proof. apply maintains_for_each. intros. apply events_run_epoch. Qed.

End LoopEvents.

(** The draw that opens [training_body], then the loop. *)
Lemma training_body_events (self : Training) (ds : list sample)
  (I : state -> Prop) (p : event -> Prop) (s : state) :
  let draw := randn (rng_state s) 64 (total_latent_dims self) in
  I (set_rng_state (snd draw) s) ->
  (forall tl vl, maintains I p
     (for_each (seq 0 (n_epochs self)) (run_epoch self tl vl (fst draw)))) ->
  exists rest,
    ev (training_body self ds s) = EvRandn (fst draw) :: rest
    /\ Forall p rest
    /\ I (st (training_body self ds s)).
Proof.
  intros draw HI H. unfold training_body.
  rewrite (@bind_ok _ _ (torch_randn 64 (total_latent_dims self)) _ s
             (fst draw) eq_refl).
  cbn [torch_randn bind get modify emit ret st ev res app]. fold draw.
  match goal with
  | |- context [ev (?m (set_rng_state (snd draw) s))] =>
      assert (Hb : maintains I p m)
  end.
  { apply maintains_bind; [apply maintains_lift |].
    intros ld. apply maintains_bind; [apply H |].
    intros ?. repeat maintain_step. }
  destruct (Hb _ HI) as [H1 H2].
  eexists. split; [reflexivity |]. split; assumption.
Qed.

(** ** One iteration, run symbolically *)

Lemma ev_bind (A X : Type) (m : M A) (k : A -> M X) (s : state) :
  ev (bind m k s) =
  ev (m s) ++ match res (m s) with
              | Ok a => ev (k a (st (m s)))
              | Raise _ => []
              end.
Proof.
  unfold bind. destruct (res (m s)); simpl; [| rewrite app_nil_r]; reflexivity.
Qed.

Lemma res_bind (A X : Type) (m : M A) (k : A -> M X) (s : state) :
  res (bind m k s) =
  match res (m s) with
  | Ok a => res (k a (st (m s)))
  | Raise e => Raise e
  end.
Proof. unfold bind. destruct (res (m s)); reflexivity. Qed.

Lemma st_bind (A X : Type) (m : M A) (k : A -> M X) (s : state) :
  st (bind m k s) =
  match res (m s) with
  | Ok a => st (k a (st (m s)))
  | Raise _ => st (m s)
  end.
Proof. unfold bind. destruct (res (m s)); reflexivity. Qed.

Lemma run_latent_vector (self : Training) (data : batch) (b : nat)
  (s : state) :
  latent_vector self data b s =
  {| st := s;
     ev := [EvForward Encoder OnCombinedMap (grad_enabled s)];
     res := latent_of self data b (m_params (mods s Encoder)) |}.
Proof.
  unfold latent_vector, latent_of. cbn.
  destruct (torch_cat_dim1 _ _); reflexivity.
Qed.

Lemma bind_latent_vector (X : Type) (self : Training) (data : batch)
  (b : nat) (k : tensor2 -> M X) (s : state) :
  bind (latent_vector self data b) k s =
  match latent_of self data b (m_params (mods s Encoder)) with
  | Ok z =>
      {| st := st (k z s);
         ev := EvForward Encoder OnCombinedMap (grad_enabled s) :: ev (k z s);
         res := res (k z s) |}
  | Raise e =>
      {| st := s;
         ev := [EvForward Encoder OnCombinedMap (grad_enabled s)];
         res := Raise e |}
  end.
Proof.
  unfold bind. rewrite run_latent_vector. simpl.
  destruct (latent_of _ _ _ _); reflexivity.
Qed.

Lemma run_update_discriminator (self : Training) (mode : split)
  (data : batch) (s : state) :
  let s0 := clear_grad Discriminator s in
  let s1 := before_latent mode data s in
  let s2 := when_train mode (accumulate_grad DisErrorFake data) s1 in
  let b := length (delta_vmap data) in
  let dis_error_real :=
    criterion
      (discriminator_fwd (m_params (mods s0 Discriminator))
         (delta_vmap data))
      (repeat (lit (label_real self)) b) in
  update_discriminator self mode data s =
  match latent_of self data b (m_params (mods s1 Encoder)) with
  | Ok z =>
      let fake := generator_fwd (m_params (mods s1 Generator)) z in
      let dis_error_fake :=
        criterion
          (discriminator_fwd (m_params (mods s1 Discriminator)) fake)
          (repeat (lit (label_fake self)) b) in
      {| st := after_discriminator mode data s;
         ev := [EvZeroGrad Discriminator;
                EvForward Discriminator OnReal (grad_enabled s0)]
               ++ if_train mode [EvBackward DisErrorReal dis_error_real]
               ++ [EvForward Encoder OnCombinedMap (grad_enabled s1);
                   EvForward Generator (OnLatent z) (grad_enabled s1);
                   EvForward Discriminator OnFakeDetached (grad_enabled s1)]
               ++ if_train mode
                    [EvBackward DisErrorFake dis_error_fake;
                     EvStep Discriminator (m_grad (mods s2 Discriminator))];
         res := Ok (fake, t_add dis_error_real dis_error_fake) |}
  | Raise e =>
      {| st := s1;
         ev := [EvZeroGrad Discriminator;
                EvForward Discriminator OnReal (grad_enabled s0)]
               ++ if_train mode [EvBackward DisErrorReal dis_error_real]
               ++ [EvForward Encoder OnCombinedMap (grad_enabled s1)];
         res := Raise e |}
  end.
Proof.
  intros s0 s1 s2 b dis_error_real. unfold update_discriminator.
  destruct mode; cbn; rewrite bind_latent_vector; fold s0; fold b;
    match goal with
    | |- context [latent_of self data b ?p] =>
        destruct (latent_of self data b p)
    end; reflexivity.
Qed.

Lemma run_update_generator (self : Training) (mode : split) (epoch : nat)
  (data : batch) (fake : list image) (dis_error : scalar) (s : state) :
  let s1 := clear_grad Generator s in
  let s2 := when_train mode (accumulate_grad TotalError data) s1 in
  let gen_error :=
    criterion (discriminator_fwd (m_params (mods s1 Discriminator)) fake)
      (repeat (lit (label_real self)) (length (delta_vmap data))) in
  let vae_error :=
    vae_criterion (map softmax_dim2 fake)
      (map softmax_dim2 (delta_vmap data)) in
  update_generator self mode epoch data fake dis_error s =
  {| st := after_generator mode data s;
     ev := [EvZeroGrad Generator;
            EvForward Discriminator OnFake (grad_enabled s1);
            EvLosses mode epoch gen_error dis_error vae_error
              (total_error_of self gen_error vae_error)]
           ++ if_train mode
                [EvBackward TotalError
                   (total_error_of self gen_error vae_error);
                 EvStep Generator (m_grad (mods s2 Generator));
                 EvStep Encoder
                   (m_grad (mods (when_train mode (apply_step Generator) s2)
                              Encoder))];
     res := Ok gen_error |}.
Proof. destruct mode; reflexivity. Qed.

(** ** Order of the updates within a train iteration *)

Lemma beforeb_seen (p q : event -> bool) (l : list event) :
  beforeb p q true l = true.
Proof. induction l as [| e l IH]; simpl; [| destruct (q e)]; auto. Qed.

Lemma beforeb_app (p q : event -> bool) (seen : bool) (l1 l2 : list event) :
  beforeb p q seen (l1 ++ l2) =
  beforeb p q seen l1 && beforeb p q (seen || existsb p l1) l2.
Proof.
  revert seen. induction l1 as [| e l1 IH]; intros seen; simpl.
  - rewrite orb_false_r. reflexivity.
  - rewrite IH, orb_assoc, andb_assoc. reflexivity.
Qed.

Lemma beforeb_sound (p q : event -> bool) (seen : bool) (l : list event) :
  beforeb p q seen l = true ->
  forall l1 e l2, l = l1 ++ e :: l2 -> q e = true ->
                  seen || existsb p l1 = true.
Proof.
  revert seen. induction l as [| x l IH]; intros seen H l1 e l2 E Hq.
  - destruct l1; discriminate.
  - simpl in H. apply andb_true_iff in H. destruct H as [H1 H2].
    destruct l1 as [| y l1]; simpl in E; injection E as -> ->.
    + rewrite Hq in H1. rewrite H1. reflexivity.
    + simpl. rewrite orb_assoc. eapply IH; [exact H2 | reflexivity | exact Hq].
Qed.

Lemma beforeb_before (p q : event -> bool) (l : list event) :
  beforeb p q false l = true -> before p q l.
Proof.
  intros H l1 e l2 E Hq.
  exact (@beforeb_sound p q false l H l1 e l2 E Hq).
Qed.

Lemma run_iteration_train (self : Training) (tl l : DataLoader)
  (z : tensor2) (epoch i : nat) (data : batch) (s : state) :
  (exists e,
      res (iteration self tl l z epoch Train i data s) = Raise e
      /\ Forall (fun x => is_gen_loss_forward x = false
                          /\ is_enc_step x = false)
           (ev (iteration self tl l z epoch Train i data s)))
  \/ (exists z' g1 g2 g3 g4 g5 gs1 v1 v2 ge de ve te gs2 gs3 rest,
        ev (iteration self tl l z epoch Train i data s) =
          [EvZeroGrad Discriminator;
           EvForward Discriminator OnReal g1;
           EvBackward DisErrorReal v1;
           EvForward Encoder OnCombinedMap g2;
           EvForward Generator (OnLatent z') g3;
           EvForward Discriminator OnFakeDetached g4;
           EvBackward DisErrorFake v2;
           EvStep Discriminator gs1;
           EvZeroGrad Generator;
           EvForward Discriminator OnFake g5;
           EvLosses Train epoch ge de ve te;
           EvBackward TotalError te;
           EvStep Generator gs2;
           EvStep Encoder gs3] ++ rest).
Proof.
  unfold iteration.
  rewrite ev_bind, res_bind.
  pose proof (run_update_discriminator self Train data s) as R.
  cbv zeta in R. rewrite R. clear R.
  destruct (latent_of _ _ _ _) as [z' | e]; cbn [st ev res].
  - right. rewrite ev_bind.
    pose proof (fun f d s => run_update_generator self Train epoch data f d s)
      as R.
    cbv zeta in R. rewrite R. clear R.
    cbn [st ev res fst snd app if_train is_train split_eqb].
    repeat eexists.
  - left. exists e. split; [reflexivity |].
    rewrite app_nil_r. repeat constructor.
Qed.

(** C2.  In the operations of any train iteration, every forward pass of
    the non-detached fake batch through the discriminator comes strictly
    after a step of the discriminator's optimizer, and every step of the
    encoder's optimizer comes strictly after the backward pass of the
    composite loss; an iteration that completes contains both. *)
Theorem update_order (self : Training) (tl l : DataLoader) (z : tensor2)
  (epoch i : nat) (data : batch) (s : state) :
  let run := iteration self tl l z epoch Train i data s in
  before is_dis_step is_gen_loss_forward (ev run)
  /\ before is_total_backward is_enc_step (ev run)
  /\ match res run with
     | Ok _ => existsb is_gen_loss_forward (ev run) = true
               /\ existsb is_enc_step (ev run) = true
     | Raise _ => True
     end.
Proof.
  intros run. subst run.
  destruct (run_iteration_train self tl l z epoch i data s)
    as [[e [R F]] | (z' & g1 & g2 & g3 & g4 & g5 & gs1 & v1 & v2 & ge & de
                     & ve & te & gs2 & gs3 & rest & E)].
  - rewrite R. repeat split.
    + intros l1 x l2 E Hq. rewrite E in F.
      apply Forall_app in F. destruct F as [_ F].
      inversion F as [| ? ? [Hx _] ?]; subst. congruence.
    + intros l1 x l2 E Hq. rewrite E in F.
      apply Forall_app in F. destruct F as [_ F].
      inversion F as [| ? ? [_ Hx] ?]; subst. congruence.
  - rewrite E. repeat split.
    + apply beforeb_before. rewrite beforeb_app. simpl.
      apply beforeb_seen.
    + apply beforeb_before. rewrite beforeb_app. simpl.
      apply beforeb_seen.
    + destruct (res _); [| exact Logic.I].
      split; rewrite existsb_app; reflexivity.
Qed.

(** ** Shapes in the latent construction *)

Lemma length_normalize (x : tensor2) : length (normalize x) = length x.
Proof. unfold normalize. apply length_map. Qed.

Lemma normalize_rows (x : tensor2) (n : nat) :
  Forall (fun row => length row = n) x ->
  Forall (fun row => length row = n) (normalize x).
Proof.
  unfold normalize. intros H. apply Forall_map.
  eapply Forall_impl; [| exact H]. intros row Hr. simpl.
  rewrite length_map. exact Hr.
Qed.

(** Joining rows of [n] entries with rows of [k] entries gives as many
    entries as [n + k] per row. *)
Lemma length_concat_joined (a b : tensor2) (n k : nat) :
  length a = length b ->
  Forall (fun row => length row = n) a ->
  Forall (fun row => length row = k) b ->
  length (concat (map (fun p => fst p ++ snd p) (combine a b)))
  = length a * (n + k).
Proof.
  revert b. induction a as [| r a IH]; intros [| r' b] E Ha Hb;
    simpl in *; try discriminate; [reflexivity |].
  inversion Ha; subst. inversion Hb; subst.
  rewrite !length_app, IH by (auto; lia). lia.
Qed.

Lemma latent_of_mismatch (self : Training) (data : batch) (p : params)
  (n k : nat) :
  length (encoder_fwd p (combined_map data)) = length (dI data) ->
  length (delta_vmap data) = length (dI data) ->
  0 < length (dI data) ->
  Forall (fun row => length row = n) (encoder_fwd p (combined_map data)) ->
  Forall (fun row => length row = k) (dI data) ->
  n + k <> total_latent_dims self ->
  (exists x, torch_cat_dim1
               (normalize (encoder_fwd p (combined_map data))) (dI data)
             = Ok x)
  /\ latent_of self data (length (delta_vmap data)) p
     = Raise (RuntimeError TorchReshape).
Proof.
  intros E1 E2 Hpos Hn Hk Hne.
  unfold latent_of, torch_cat_dim1.
  rewrite length_normalize, E1, Nat.eqb_refl.
  split; [eexists; reflexivity |].
  unfold torch_reshape.
  rewrite (@length_concat_joined _ _ n k);
    [| rewrite length_normalize; exact E1 | apply normalize_rows, Hn | exact Hk].
  rewrite length_normalize, E1, E2.
  destruct (Nat.eqb_spec (length (dI data) * (n + k))
              (length (dI data) * total_latent_dims self * 1 * 1))
    as [E | _]; [| reflexivity].
  exfalso. apply Hne. nia.
Qed.

Lemma params_clear_grad (m m' : module_id) (s : state) :
  m_params (mods (clear_grad m s) m') = m_params (mods s m').
Proof. destruct m, m'; reflexivity. Qed.

Lemma params_accumulate_grad (l : loss_kind) (data : batch) (m : module_id)
  (s : state) :
  m_params (mods (accumulate_grad l data s) m) = m_params (mods s m).
Proof. destruct l, m; reflexivity. Qed.


Lemma collate_lengths (items : list sample) :
  length (delta_vmap (collate items)) = length items
  /\ length (dI (collate items)) = length items
  /\ length (combined_map (collate items)) = length items.
Proof. unfold collate; simpl. rewrite !length_map. auto. Qed.

(** An exception of the latent construction ends the iteration before
    the generator is called and before any optimizer step. *)
Lemma iteration_latent_raise (self : Training) (tl l : DataLoader)
  (z : tensor2) (epoch : nat) (mode : split) (i : nat) (data : batch)
  (s : state) (e : exn) :
  (forall p, latent_of self data (length (delta_vmap data)) p = Raise e) ->
  res (iteration self tl l z epoch mode i data s) = Raise e
  /\ existsb is_generator_forward
       (ev (iteration self tl l z epoch mode i data s)) = false
  /\ existsb is_step (ev (iteration self tl l z epoch mode i data s))
     = false.
Proof.
  intros Hlat. unfold iteration.
  rewrite res_bind, ev_bind.
  unfold update_discriminator.
  destruct mode; cbn; rewrite bind_latent_vector, Hlat; cbn; auto.
Qed.

(** C9, amended.  For a non-empty batch whose encoder rows have [n]
    entries and whose [dI] rows have [k] entries with [n + k] different
    from [total_latent_dims], the concatenation of the normalised latent
    with [dI] succeeds and the iteration is aborted by the reshape that
    follows it, with a [RuntimeError], before the generator is called and
    before any optimizer step; nothing is truncated. *)
Theorem shape_mismatch_raises_at_reshape {L : BackendLaws}
  (self : Training) (tl l : DataLoader) (z : tensor2) (epoch : nat)
  (mode : split) (i : nat) (items : list sample) (s : state) (n k : nat) :
  items <> [] ->
  (forall p x, Forall (fun row => length row = n) (encoder_fwd p x)) ->
  Forall (fun it => length (s_dI it) = k) items ->
  n + k <> total_latent_dims self ->
  let data := collate items in
  let run := iteration self tl l z epoch mode i data s in
  (exists x,
      torch_cat_dim1
        (normalize (encoder_fwd (m_params (mods s Encoder))
                      (combined_map data))) (dI data) = Ok x)
  /\ res run = Raise (RuntimeError TorchReshape)
  /\ existsb is_generator_forward (ev run) = false
  /\ existsb is_step (ev run) = false.
Proof.
  intros Hne Henc Hk Hmis data run.
  destruct (collate_lengths items) as [E1 [E2 E3]]. fold data in E1, E2, E3.
  assert (Hlat : forall p,
             (exists x, torch_cat_dim1
                          (normalize (encoder_fwd p (combined_map data)))
                          (dI data) = Ok x)
             /\ latent_of self data (length (delta_vmap data)) p
                = Raise (RuntimeError TorchReshape)).
  { intros p. apply latent_of_mismatch with (n := n) (k := k).
    - rewrite encoder_batch. congruence.
    - congruence.
    - rewrite E2. destruct items; [contradiction | simpl; lia].
    - apply Henc.
    - unfold data, collate; simpl. apply Forall_map. exact Hk.
    - exact Hmis. }
  split; [apply Hlat |].
  apply iteration_latent_raise. intros p. apply Hlat.
Qed.

(** ** The export of a batch *)

Lemma set_files_same (s : state) : set_files (files s) s = s.
Proof. destruct s; reflexivity. Qed.

Lemma run_export_loop (dir : split) (base : nat) (fake real : list image)
  (js : list nat) (s : state) :
  (forall j, In j js -> j < length fake /\ j < length real) ->
  for_each js (fun i =>
    f <- lift (index fake i) ;;
    save_image f dir (gen_name (base + i)) ;;
    r <- lift (index real i) ;;
    save_image r dir (real_name (base + i))) s
  = {| st := set_files
               (files s ++
                flat_map (fun j =>
                  match nth_error fake j, nth_error real j with
                  | Some f, Some r => pair_files dir base j f r
                  | _, _ => []
                  end) js) s;
       ev := [];
       res := Ok tt |}.
Proof.
  revert s. induction js as [| j js IH]; intros s H.
  - simpl. rewrite app_nil_r, set_files_same. reflexivity.
  - destruct (H j (or_introl eq_refl)) as [Hf Hr].
    apply nth_error_Some in Hf, Hr.
    destruct (nth_error fake j) as [f |] eqn:Ef; [| congruence].
    destruct (nth_error real j) as [r |] eqn:Er; [| congruence].
    set (body := fun i : nat =>
      f <- lift (index fake i) ;;
      save_image f dir (gen_name (base + i)) ;;
      r <- lift (index real i) ;;
      save_image r dir (real_name (base + i))) in *.
    assert (Hb : body j s =
              {| st := write_file r dir (real_name (base + j))
                         (write_file f dir (gen_name (base + j)) s);
                 ev := [];
                 res := Ok tt |}).
    { unfold body, bind, lift, index, save_image, modify.
      rewrite Ef. simpl. rewrite Er. reflexivity. }
    cbn [for_each]. unfold bind. rewrite Hb. cbn [st ev res].
    rewrite IH by (intros j' Hj'; apply H; right; exact Hj').
    cbn [st ev res flat_map app]. rewrite Ef, Er.
    unfold write_file, pair_files. cbn [files set_files].
    rewrite <- !app_assoc. reflexivity.
Qed.

Lemma run_export_images (self : Training) (dir : split)
  (fake real : list image) (s : state) :
  length fake <= length real ->
  export_images self dir fake real s
  = {| st := bump_split_iters dir
               (set_files
                  (files s ++
                   exported dir (split_iters s dir * batch_size self)
                     fake real) s);
       ev := [];
       res := Ok tt |}.
Proof.
  intros H. unfold export_images.
  rewrite (@bind_ok _ _ get _ s s eq_refl). cbn [get st ev res app].
  rewrite st_bind, ev_bind, res_bind, run_export_loop.
  - reflexivity.
  - intros j Hj. apply in_seq in Hj. lia.
Qed.

(** ** Normal termination with a postcondition *)

Lemma wp_ret (A : Type) (a : A) s (P : A -> state -> list event -> Prop) :
  P a s [] -> wp (ret a) s P.
Proof. intros H. exact H. Qed.

Lemma wp_get s (P : state -> state -> list event -> Prop) :
  P s s [] -> wp get s P.
Proof. intros H. exact H. Qed.

Lemma wp_modify (f : state -> state) s
  (P : unit -> state -> list event -> Prop) :
  P tt (f s) [] -> wp (modify f) s P.
Proof. intros H. exact H. Qed.

Lemma wp_emit (e : event) s (P : unit -> state -> list event -> Prop) :
  P tt s [e] -> wp (emit e) s P.
Proof. intros H. exact H. Qed.

Lemma wp_lift (A : Type) (a : A) s (P : A -> state -> list event -> Prop) :
  P a s [] -> wp (lift (Ok a)) s P.
Proof. intros H. exact H. Qed.

Lemma wp_bind (A X : Type) (m : M A) (k : A -> M X) s
  (P : X -> state -> list event -> Prop) :
  wp m s (fun a s1 e1 => wp (k a) s1 (fun b s2 e2 => P b s2 (e1 ++ e2))) ->
  wp (bind m k) s P.
Proof.
  unfold wp, bind. destruct (res (m s)) as [a | e]; [| intros []].
  simpl. destruct (res (k a (st (m s)))); auto.
Qed.

Lemma wp_conseq (A : Type) (m : M A) s
  (P Q : A -> state -> list event -> Prop) :
  wp m s P -> (forall a s' e, P a s' e -> Q a s' e) -> wp m s Q.
Proof. unfold wp. destruct (res (m s)); auto. Qed.

Lemma wp_elim (A : Type) (m : M A) s
  (P : A -> state -> list event -> Prop) :
  wp m s P -> exists a, res (m s) = Ok a /\ P a (st (m s)) (ev (m s)).
Proof.
  unfold wp. destruct (res (m s)) as [a | e]; [| intros []].
  intros H. exists a. auto.
Qed.

Lemma wp_intro (A : Type) (m : M A) s (a : A)
  (P : A -> state -> list event -> Prop) :
  res (m s) = Ok a -> P a (st (m s)) (ev (m s)) -> wp m s P.
Proof. unfold wp. intros ->. auto. Qed.

Lemma wp_with (A : Type) (body : M A) s
  (P : A -> state -> list event -> Prop) :
  wp body (set_grad_enabled false s)
    (fun a s1 e1 => P a (set_grad_enabled (grad_enabled s) s1) e1) ->
  wp (with_ no_grad body) s P.
Proof.
  unfold wp, with_, no_grad, no_grad_enter, no_grad_exit, bind, ret, get,
    modify. simpl.
  destruct (res (body (set_grad_enabled false s))); auto.
Qed.

Lemma wp_export_images (self : Training) (dir : split)
  (fake real : list image) s (P : unit -> state -> list event -> Prop) :
  length fake <= length real ->
  P tt (bump_split_iters dir
          (set_files
             (files s ++
              exported dir (split_iters s dir * batch_size self) fake real)
             s)) [] ->
  wp (export_images self dir fake real) s P.
Proof.
  intros H HP. unfold wp. rewrite run_export_images by exact H. exact HP.
Qed.


Ltac wp_step :=
  lazymatch goal with
  | |- wp (bind _ _) _ _ => apply wp_bind
  | |- wp (ret _) _ _ => apply wp_ret
  | |- wp get _ _ => apply wp_get
  | |- wp (modify _) _ _ => apply wp_modify
  | |- wp (emit _) _ _ => apply wp_emit
  | |- wp (lift (Ok _)) _ _ => apply wp_lift
  | |- wp (with_ no_grad _) _ _ => apply wp_with
  | |- wp (when ?b _) _ _ => destruct b; unfold when
  | |- wp (add_losses _ _ _) _ _ => unfold add_losses
  | |- wp (append_grid _ _) _ _ => unfold append_grid
  | |- wp (forward_generator _ _) _ _ => unfold forward_generator
  | |- wp (forward_discriminator _ _) _ _ => unfold forward_discriminator
  | |- wp (forward_encoder _) _ _ => unfold forward_encoder
  | |- wp (zero_grad _) _ _ => unfold zero_grad
  | |- wp (backward _ _) _ _ => unfold backward
  | |- wp (optimizer_step _) _ _ => unfold optimizer_step
  | |- wp no_grad _ _ => apply wp_ret
  | |- wp reset_sums _ _ => apply wp_modify
  end.

Lemma record_progress_spec (self : Training) (tl l : DataLoader)
  (z : tensor2) (epoch : nat) (mode : split) (i : nat)
  (fake real : list image) (g d : scalar) (s : state) :
  length fake <= length real ->
  wp (record_progress self tl l z epoch mode i fake real g d) s
    (fun _ s' e =>
       Forall (fun x => is_losses x = false /\ is_step x = false
                        /\ is_backward x = false) e
       /\ gen_loss s'
          = upd_split (gen_loss s) mode (py_add (gen_loss s mode) g)
       /\ dis_loss s'
          = upd_split (dis_loss s) mode (py_add (dis_loss s mode) d)
       /\ n_batches s' = upd_split (n_batches s) mode (n_batches s mode + 1)
       /\ gen_losses s' = gen_losses s
       /\ dis_losses s' = dis_losses s
       /\ files s'
          = files s ++ (if is_last_epoch self epoch
                        then exported mode
                               (split_iters s mode * batch_size self)
                               fake real
                        else [])
       /\ split_iters s'
          = (if is_last_epoch self epoch
             then upd_split (split_iters s) mode (split_iters s mode + 1)
             else split_iters s)
       /\ mods s' = mods s
       /\ iters s' = iters s + 1).
Proof.
  intros H. unfold record_progress.
  destruct mode; destruct (is_last_epoch self epoch) eqn:E;
    repeat first [wp_step | apply wp_export_images; [exact H |]];
    cbv beta; cbn [app];
    (split; [repeat constructor |]);
    repeat split; try reflexivity;
    unfold bump_iters, push_grid, bump_split_iters, count_batch,
      set_grad_enabled; cbn; rewrite ?app_nil_r; reflexivity.
Qed.

Lemma params_before_latent (mode : split) (data : batch) (m : module_id)
  (s : state) :
  m_params (mods (before_latent mode data s) m) = m_params (mods s m).
Proof.
  unfold before_latent, when_train.
  destruct (is_train mode);
    rewrite ?params_accumulate_grad, params_clear_grad; reflexivity.
Qed.

(** ** What a completed iteration does to the books *)

Lemma iteration_spec (self : Training) (tl l : DataLoader) (z : tensor2)
  (epoch : nat) (mode : split) (i : nat) (data : batch) (s : state)
  (z' : tensor2) :
  latent_of self data (length (delta_vmap data))
    (m_params (mods s Encoder)) = Ok z' ->
  let real := delta_vmap data in
  let fake := generator_fwd (m_params (mods s Generator)) z' in
  let d0 := m_params (mods s Discriminator) in
  let d1 := m_params (mods (after_discriminator mode data s)
                        Discriminator) in
  let g := criterion (discriminator_fwd d1 fake)
             (repeat (lit (label_real self)) (length real)) in
  let d := t_add
             (criterion (discriminator_fwd d0 real)
                (repeat (lit (label_real self)) (length real)))
             (criterion (discriminator_fwd d0 fake)
                (repeat (lit (label_fake self)) (length real))) in
  let v := similarity_loss fake real in
  length fake <= length real ->
  wp (iteration self tl l z epoch mode i data) s
    (fun _ s' e =>
       filter is_losses e
         = [EvLosses mode epoch g d v (total_error_of self g v)]
       /\ filter is_total_backward e
          = if_train mode [EvBackward TotalError (total_error_of self g v)]
       /\ gen_loss s'
          = upd_split (gen_loss s) mode (py_add (gen_loss s mode) g)
       /\ dis_loss s'
          = upd_split (dis_loss s) mode (py_add (dis_loss s mode) d)
       /\ n_batches s'
          = upd_split (n_batches s) mode (n_batches s mode + 1)
       /\ gen_losses s' = gen_losses s
       /\ dis_losses s' = dis_losses s
       /\ files s'
          = files s ++ (if is_last_epoch self epoch
                        then exported mode
                               (split_iters s mode * batch_size self)
                               fake real
                        else [])
       /\ split_iters s'
          = (if is_last_epoch self epoch
             then upd_split (split_iters s) mode (split_iters s mode + 1)
             else split_iters s)
       /\ iters s' = iters s + 1).
Proof.
  intros Hlat real fake d0 d1 g d v Hlen. unfold iteration.
  apply wp_bind.
  pose proof (run_update_discriminator self mode data s) as R.
  cbv zeta in R.
  rewrite !params_before_latent, !params_clear_grad, Hlat in R.
  fold fake real d0 in R. fold d in R.
  eapply wp_intro; [rewrite R; reflexivity |].
  rewrite R. clear R. cbn [st ev res fst snd].
  apply wp_bind.
  pose proof (run_update_generator self mode epoch data fake d
                (after_discriminator mode data s)) as R.
  cbv zeta in R. rewrite params_clear_grad in R.
  fold real d1 in R. fold g in R. fold (similarity_loss fake real) in R.
  fold v in R.
  eapply wp_intro; [rewrite R; reflexivity |].
  rewrite R. clear R. cbn [st ev res].
  apply wp_bind.
  set (sg := after_generator mode data (after_discriminator mode data s)).
  assert (Hpr : forall P : unit -> state -> list event -> Prop,
             (forall e, Forall (fun x => is_losses x = false
                                         /\ is_total_backward x = false) e ->
                        P tt sg e) ->
             wp (when (i mod 50 =? 0) (emit (EvPrint epoch i))) sg P).
  { intros P HP. destruct (i mod 50 =? 0); simpl.
    - apply wp_emit. apply HP. repeat constructor.
    - apply wp_ret. apply HP. constructor. }
  apply Hpr. intros e1 He1.
  eapply wp_conseq; [apply record_progress_spec; exact Hlen |].
  intros _u s' e2 (F & G1 & G2 & G3 & G4 & G5 & G6 & G7 & _ & G9).
  assert (Ffilter : forall (q : event -> bool) e,
             Forall (fun x => q x = false) e -> filter q e = []).
  { induction 1 as [| x e Hx _ IH]; simpl; [| rewrite Hx]; auto. }
  assert (L1 : filter is_losses e1 = []).
  { apply Ffilter. eapply Forall_impl; [| exact He1]. intros ? [? _]; auto. }
  assert (B1 : filter is_total_backward e1 = []).
  { apply Ffilter. eapply Forall_impl; [| exact He1]. intros ? [_ ?]; auto. }
  assert (L2 : filter is_losses e2 = []).
  { apply Ffilter. eapply Forall_impl; [| exact F]. intros ? [? _]; auto. }
  assert (B2 : filter is_total_backward e2 = []).
  { apply Ffilter. eapply Forall_impl; [| exact F].
    intros x (_ & _ & Hx). destruct x; try reflexivity; discriminate. }
  subst sg.
  split.
  { rewrite !filter_app, L1, L2. destruct mode; reflexivity. }
  split.
  { rewrite !filter_app, B1, B2. destruct mode; reflexivity. }
  destruct mode; cbn in G1, G2, G3, G4, G5, G6, G7, G9 |- *;
    repeat split; assumption.
Qed.

Lemma length_view_rows (b t : nat) (flat : list scalar) :
  length (view_rows b t flat) = b.
Proof. revert flat. induction b; intros; simpl; [| rewrite IHb]; auto. Qed.

Lemma latent_of_length (self : Training) (data : batch) (b : nat)
  (p : params) (z' : tensor2) :
  latent_of self data b p = Ok z' -> length z' = b.
Proof.
  unfold latent_of, torch_reshape.
  destruct (torch_cat_dim1 _ _); [| discriminate].
  destruct (_ =? _); [| discriminate].
  intros E. injection E as <-. apply length_view_rows.
Qed.

(** An iteration stopped by the latent construction has only touched the
    discriminator's gradient buffer, and has computed no generator loss. *)
Lemma iteration_raise_state (self : Training) (tl l : DataLoader)
  (z : tensor2) (epoch : nat) (mode : split) (i : nat) (data : batch)
  (s : state) (e : exn) :
  latent_of self data (length (delta_vmap data))
    (m_params (mods s Encoder)) = Raise e ->
  res (iteration self tl l z epoch mode i data s) = Raise e
  /\ st (iteration self tl l z epoch mode i data s)
     = before_latent mode data s
  /\ filter is_losses (ev (iteration self tl l z epoch mode i data s)) = [].
Proof.
  intros Hlat. unfold iteration. rewrite res_bind, st_bind, ev_bind.
  pose proof (run_update_discriminator self mode data s) as R.
  cbv zeta in R. rewrite params_before_latent, Hlat in R.
  rewrite R. simpl. repeat split. destruct mode; reflexivity.
Qed.



(** ** The composite loss *)

Lemma total_error_default {A : ArithmeticLaws} (n : nat) (g v : scalar) :
  total_error_of (Training_init n) g v = composite g v.
Proof.
  unfold total_error_of, composite. simpl.
  rewrite mul_opposite, add_opposite. reflexivity.
Qed.

(** C3.  With the hyper-parameters of [Training.__init__] the scaling
    factor is 0.01.  In either phase, an iteration whose latent vector can
    be built computes exactly one composite loss: the adversarial
    generator loss (the criterion, against labels 1.0, on the output of
    the discriminator as it is after the discriminator phase, for the
    batch the generator made of the latent vector) minus 0.01 times the
    distributional-similarity loss of that fake batch and the real batch;
    in the train phase this is the value whose backward pass feeds the
    generator and encoder steps.  Every composite loss computed during a
    run has this form. *)
Theorem composite_loss_every_batch {A : ArithmeticLaws} {L : BackendLaws}
  (n : nat) :
  let self := Training_init n in
  vae_loss_scaling_factor self = (1 # 100)%Q
  /\ (forall tl l z epoch mode i data s,
        let o := iteration self tl l z epoch mode i data s in
        let b := length (delta_vmap data) in
        match latent_of self data b (m_params (mods s Encoder)) with
        | Ok z' =>
            let fake := generator_fwd (m_params (mods s Generator)) z' in
            let d1 := m_params (mods (after_discriminator mode data s)
                                  Discriminator) in
            let gen_error := adversarial_loss d1 fake b in
            let vae_error := similarity_loss fake (delta_vmap data) in
            exists dis_error,
              filter is_losses (ev o)
              = [EvLosses mode epoch gen_error dis_error vae_error
                   (composite gen_error vae_error)]
              /\ filter is_total_backward (ev o)
                 = if_train mode
                     [EvBackward TotalError
                        (composite gen_error vae_error)]
        | Raise _ => filter is_losses (ev o) = []
        end)
  /\ (forall n0 ds, Forall composite_loss_ok (ev (training self n0 ds))).
Proof.
  intros self. split; [reflexivity |]. split.
  - intros tl l z epoch mode i data s o b.
    destruct (latent_of _ _ _ _) as [z' | e] eqn:Hlat.
    + intros fake d1 gen_error vae_error.
      assert (Hlen : length fake <= length (delta_vmap data)).
      { unfold fake. rewrite generator_batch.
        rewrite (latent_of_length _ _ _ _ Hlat). apply Nat.le_refl. }
      pose proof (@iteration_spec self tl l z epoch mode i data s z' Hlat)
        as W.
      cbv zeta in W. specialize (W Hlen). apply wp_elim in W.
      destruct W as [[] [_ (F1 & F2 & _)]].
      eexists. fold o in F1, F2. unfold self in F1, F2.
      rewrite total_error_default in F1, F2.
      split; [exact F1 | exact F2].
    + apply (@iteration_raise_state self tl l z epoch mode i data s e Hlat).
  - intros n0 ds. unfold training.
    destruct (@training_body_events self ds (fun _ => True)
                composite_loss_ok (fresh self n0) Logic.I)
      as (rest & E & F & _).
    + intros tl vl.
      apply events_epochs; try (intros; exact Logic.I).
      intros mode epoch g d v. simpl. apply total_error_default.
    + rewrite E. constructor; [exact Logic.I | exact F].
Qed.

(** ** The fixed evaluation latent *)

(** C6.  The first operation of a run is the one [torch.randn] call of
    the run: it draws the evaluation latent, 64 rows of [total_latent_dims]
    entries, from the generator as the seed and the construction of the
    networks left it, before the first batch of the first epoch.
    No later operation draws noise; every checkpoint of either split runs
    the generator on exactly the tensor drawn, and every grid of either
    history is the grid of the generator's images of that tensor. *)
Theorem fixed_noise_sampled_once (self : Training) (n0 : nets)
  (ds : list sample) :
  let draw := randn (initial_rng (manualSeed self)) 64
                (total_latent_dims self) in
  let o := training self n0 ds in
  exists rest,
    ev o = EvRandn (fst draw) :: rest
    /\ Forall (uses_noise (fst draw)) rest
    /\ forall m, Forall (grid_of (fst draw)) (img_list (st o) m).
Proof.
  intros draw o. subst o. unfold training.
  set (I := fun s : state =>
              forall m, Forall (grid_of (fst draw)) (img_list s m)).
  destruct (@training_body_events self ds I (uses_noise (fst draw))
              (fresh self n0)) as (rest & E & F & HI).
  - intros m; constructor.
  - intros tl vl. apply events_epochs;
      try (intros; exact Logic.I);
      try (intros; match goal with H : I _ |- _ => exact H end).
    + intros m q s H2.
      intros m'. unfold push_grid, upd_split. cbn.
      destruct (split_eqb m m'); [| apply H2].
      apply Forall_app. split; [apply H2 |].
      repeat constructor. exists q. reflexivity.
    + intros m site g Hs. destruct site; try exact Logic.I.
      exfalso. eapply Hs. reflexivity.
    + intros g. reflexivity.
  - exists rest. auto.
Qed.

(** ** File names are read back without loss *)






(** ** Names of exported files never collide *)















(** ** Loss histories *)


























End Theory.

(** * The loop on concrete data *)

Section Concrete.
Import Toy.

(** C1.  A validation pass issues no optimizer step and leaves the
    parameters of the three networks as they were, but its forward passes
    do not run with gradients disabled: the bare [torch.no_grad()] call of
    the validation branch builds a context manager and never enters it, so
    all six forward passes of the pass run in gradient mode. *)
Theorem validation_pass_keeps_gradients_enabled :
  res validation_pass = Ok tt
  /\ existsb is_step (ev validation_pass) = false
  /\ (forall m, m_params (mods (st validation_pass) m)
                = m_params (mods (st train_pass) m))
  /\ forward_modes (ev validation_pass)
     = [true; true; true; true; true; true].
Proof.
  split; [vm_compute; reflexivity |].
  split; [vm_compute; reflexivity |].
  split; [intros m; destruct m; vm_compute; reflexivity |].
  vm_compute. reflexivity.
Qed.

(** C4.  In a run of two epochs over [dataset3] the encoder's optimizer
    steps twice, at iterations 0 and 2.  Its gradient buffer is never
    cleared, so the second step consumes the summand left by iteration 0
    together with the current one, whereas the steps of the discriminator
    and of the generator consume summands of the current iteration only. *)
Theorem encoder_step_reads_stale_gradient :
  consumed_by Encoder (ev run2)
  = [ [ {| g_iter := 0; g_loss := TotalError; g_val := tt |} ];
      [ {| g_iter := 0; g_loss := TotalError; g_val := tt |};
        {| g_iter := 2; g_loss := TotalError; g_val := tt |} ] ]
  /\ consumed_by Generator (ev run2)
     = [ [ {| g_iter := 0; g_loss := TotalError; g_val := tt |} ];
         [ {| g_iter := 2; g_loss := TotalError; g_val := tt |} ] ]
  /\ consumed_by Discriminator (ev run2)
     = [ [ {| g_iter := 0; g_loss := DisErrorReal; g_val := tt |};
           {| g_iter := 0; g_loss := DisErrorFake; g_val := tt |} ];
         [ {| g_iter := 2; g_loss := DisErrorReal; g_val := tt |};
           {| g_iter := 2; g_loss := DisErrorFake; g_val := tt |} ] ].
Proof. repeat split; vm_compute; reflexivity. Qed.

(** C5.  A run of two epochs over [dataset3]: the train split has one
    batch per epoch, of two items.  The only grid in the train history is
    the one captured at iteration 0 (generator version 1).  The last train
    batch of the last epoch, at iteration 2, captures nothing, because the
    export loop has overwritten [i] with 1 before it is compared with
    [len(train_dataloader) - 1 = 0]. *)
Theorem last_train_batch_not_captured :
  loader_len (fst loaders3) = 1
  /\ map (fun b => length (delta_vmap b))
         (loader_batches 1 (fst loaders3)) = [2]
  /\ range_last 0 2 = 1
  /\ img_list (st run2) Train = [repeat 1 64]
  /\ img_list (st run2) Val = [repeat 2 64]
  /\ res run2
     = Ok ([repeat 1 64], [repeat 2 64],
           [2; 2]%Q, [4; 4]%Q, [1; 1]%Q, [2; 2]%Q).
Proof. repeat split; vm_compute; reflexivity. Qed.

(** C9, as stated, fails: with 64 latent dimensions and one [dI] feature
    against 448 configured dimensions, the concatenation succeeds and the
    run is aborted by the reshape that follows it. *)
Lemma shape_error_not_at_concatenation :
  (latent_dims (Training_init 1) + 1 <> total_latent_dims (Training_init 1))
  /\ (exists x,
        torch_cat_dim1
          (normalize (encoder_fwd 0 (combined_map short_batch)))
          (dI short_batch) = Ok x
        /\ map (fun row => length row) x = [65; 65])
  /\ res (training (Training_init 1) nets0 short_dataset)
     = Raise (RuntimeError TorchReshape)
  /\ res (training (Training_init 1) nets0 short_dataset)
     <> Raise (RuntimeError TorchCat).
Proof.
  split; [vm_compute; discriminate |].
  split.
  - eexists. split; [vm_compute; reflexivity | vm_compute; reflexivity].
  - split; [vm_compute; reflexivity | vm_compute; discriminate].
Qed.

(** The toy backend keeps its contracts. *)
Lemma toy_laws : @BackendLaws Toy.carriers Toy.backend.
Proof.
  constructor; simpl; intros.
  - apply length_map.
  - apply length_map.
  - apply Permutation_refl.
  - apply Permutation_refl.
Qed.

Lemma toy_encoder_rows (p : params) (x : list cmap) :
  Forall (fun row => length row = 64) (encoder_fwd p x).
Proof.
  simpl. apply Forall_map. apply Forall_forall. intros. reflexivity.
Qed.

(** The amended C9 at the two short items of [short_batch]. *)
Lemma shape_mismatch_raises_at_reshape_witness :
  [short_item 0; short_item 1] <> []
  /\ (forall p x, Forall (fun row => length row = 64) (encoder_fwd p x))
  /\ Forall (fun it => length (s_dI it) = 1) [short_item 0; short_item 1]
  /\ 64 + 1 <> total_latent_dims (Training_init 1)
  /\ res (iteration (Training_init 1) (fst loaders3) (fst loaders3) noise
            0 Train 0 short_batch (fresh (Training_init 1) nets0))
     = Raise (RuntimeError TorchReshape).
Proof.
  assert (H1 : [short_item 0; short_item 1] <> []) by discriminate.
  assert (H3 : Forall (fun it => length (s_dI it) = 1)
                 [short_item 0; short_item 1])
    by (repeat constructor).
  assert (H4 : 64 + 1 <> total_latent_dims (Training_init 1))
    by (simpl; lia).
  split; [exact H1 |]. split; [exact toy_encoder_rows |].
  split; [exact H3 |]. split; [exact H4 |].
  exact (proj1 (proj2
    (@shape_mismatch_raises_at_reshape _ _ toy_laws (Training_init 1)
       (fst loaders3) (fst loaders3) noise 0 Train 0
       [short_item 0; short_item 1] (fresh (Training_init 1) nets0)
       64 1 H1 toy_encoder_rows H3 H4))).
Defined.


Lemma toy_arith : @ArithmeticLaws Toy.carriers Toy.backend.
Proof.
  constructor; simpl; intros a b.
  - destruct a, b. unfold Qmult, Qopp. simpl.
    rewrite Z.mul_opp_l. reflexivity.
  - reflexivity.
Qed.




(** C3 at the run of two epochs over [dataset3]. *)
Lemma composite_loss_every_batch_witness :
  vae_loss_scaling_factor (Training_init 2) = (1 # 100)%Q
  /\ Forall composite_loss_ok (ev run2).
Proof.
  pose proof (@composite_loss_every_batch _ _ toy_arith toy_laws 2) as H.
  cbv zeta in H. destruct H as (H1 & _ & H3).
  split; [exact H1 | exact (H3 nets0 dataset3)].
Defined.




End Concrete.
